(** * AGP dashboard: the data-processing functions of [streamlit_app.py]

    A shallow embedding of [load_data], [compute_agp_summary],
    [compute_daily_profiles] and [compute_agp], together with the pandas and
    numpy operations they call, and the properties of the aggregation pipeline.

    Numbers.  Glucose values are float64 in the program.  They are modelled
    here as exact rationals ([Q]); the non-finite results that float arithmetic
    produces instead of raising (NaN, +inf, -inf) are kept, as the type
    [fval].  Rounding is not modelled.  The only irrational operation of the
    program, the square root inside [Series.std], yields a real number.
    Where the rounding decides a property, for the coefficient of
    variation, the computation is given a second time in binary64, in the
    module [Float64]. *)

From Stdlib Require Import List String Bool Arith ZArith Lia.
From Stdlib Require Import QArith Qround.
From Stdlib Require Import Reals Qreals Lra Lqa.
From Stdlib Require Floats.
From Stdlib Require Import Permutation Sorted.
Import ListNotations.

Local Open Scope nat_scope.

(* ------------------------------------------------------------------ *)
(** ** Float results *)

Inductive fval (A : Type) : Type :=
| Fin (x : A)
| PInf
| NInf
| NaN.

Arguments Fin {A} x.
Arguments PInf {A}.
Arguments NInf {A}.
Arguments NaN {A}.

Module Float.
Section Ops.
Context {A : Type}.
(** [sgn x] is the comparison of [x] with zero. *)
Variable sgn : A -> comparison.
Variables (mul div : A -> A -> A) (zero : A).

Definition inf_of (c : comparison) : fval A :=
  match c with Gt => PInf | Lt => NInf | Eq => NaN end.

Definition sgn_mul (c d : comparison) : comparison :=
  match c, d with
  | Eq, _ | _, Eq => Eq
  | Gt, Gt | Lt, Lt => Gt
  | _, _ => Lt
  end.

(** IEEE 754 multiplication, without rounding. *)
Definition fmul (a b : fval A) : fval A :=
  match a, b with
  | NaN, _ | _, NaN => NaN
  | Fin x, Fin y => Fin (mul x y)
  | Fin x, PInf | PInf, Fin x => inf_of (sgn x)
  | Fin x, NInf | NInf, Fin x => inf_of (sgn_mul (sgn x) Lt)
  | PInf, PInf | NInf, NInf => PInf
  | PInf, NInf | NInf, PInf => NInf
  end.

(** IEEE 754 division, without rounding: a finite value divided by zero is
    an infinity, zero divided by zero is NaN, nothing raises. *)
Definition fdiv (a b : fval A) : fval A :=
  match a, b with
  | NaN, _ | _, NaN => NaN
  | Fin x, Fin y =>
      match sgn y with
      | Eq => inf_of (sgn x)
      | _ => Fin (div x y)
      end
  | Fin _, PInf | Fin _, NInf => Fin zero
  | PInf, Fin y => inf_of (match sgn y with Lt => Lt | _ => Gt end)
  | NInf, Fin y => inf_of (match sgn y with Lt => Gt | _ => Lt end)
  | _, _ => NaN
  end.
End Ops.
End Float.

Definition Qsgn (x : Q) : comparison := (x ?= 0)%Q.

Definition Rsgn (x : R) : comparison :=
  if Rlt_dec 0 x then Gt else if Rlt_dec x 0 then Lt else Eq.

Definition fmulQ : fval Q -> fval Q -> fval Q := Float.fmul Qsgn Qmult.
Definition fmulR : fval R -> fval R -> fval R := Float.fmul Rsgn Rmult.
Definition fdivR : fval R -> fval R -> fval R := Float.fdiv Rsgn Rdiv 0%R.

Definition fQ2R (a : fval Q) : fval R :=
  match a with
  | Fin x => Fin (Q2R x)
  | PInf => PInf
  | NInf => NInf
  | NaN => NaN
  end.

(** Float comparison [a <= b]: false as soon as one side is NaN. *)
Definition fle (a b : fval Q) : bool :=
  match a, b with
  | NaN, _ | _, NaN => false
  | NInf, _ | _, PInf => true
  | Fin x, Fin y => Qle_bool x y
  | _, _ => false
  end.

(** Equality of float results up to the representation of the rational. *)
Definition feq (a b : fval Q) : Prop :=
  match a, b with
  | Fin x, Fin y => (x == y)%Q
  | PInf, PInf | NInf, NInf | NaN, NaN => True
  | _, _ => False
  end.

Definition Qnat (n : nat) : Q := inject_Z (Z.of_nat n).

(* ------------------------------------------------------------------ *)
(** ** Timestamps, cells, frames *)

Record date := mkDate { dyear : nat; dmonth : nat; dday : nat }.

Record datetime := mkDatetime {
  year : nat; month : nat; day : nat;
  hour : nat; minute : nat; second : nat
}.

(** [Timestamp.date()]: the date component, no timezone conversion. *)
Definition date_of (t : datetime) : date :=
  mkDate (year t) (month t) (day t).

Definition date_compare (a b : date) : comparison :=
  match Nat.compare (dyear a) (dyear b) with
  | Eq => match Nat.compare (dmonth a) (dmonth b) with
          | Eq => Nat.compare (dday a) (dday b)
          | c => c
          end
  | c => c
  end.

(** A cell of a column. *)
Inductive cell :=
| VNum (q : Q)
| VTime (t : datetime)
| VDate (d : date)
| VStr (s : string).

Definition column := list cell.

(** A DataFrame: its columns in order, by name. *)
Definition DataFrame := list (string * column).

Fixpoint lookup (name : string) (df : DataFrame) : option column :=
  match df with
  | [] => None
  | (n, c) :: rest => if String.eqb n name then Some c else lookup name rest
  end.

(** [df[name] = c]: replaces the column when it exists, appends it otherwise. *)
Fixpoint set_column (name : string) (c : column) (df : DataFrame) : DataFrame :=
  match df with
  | [] => [(name, c)]
  | (n, c') :: rest =>
      if String.eqb n name then (n, c) :: rest
      else (n, c') :: set_column name c rest
  end.

Definition column_names (df : DataFrame) : list string := map fst df.

(** [len(df)]: the number of rows, that of the first column. *)
Definition len (df : DataFrame) : nat :=
  match df with
  | [] => 0
  | (_, c) :: _ => List.length c
  end.

(* ------------------------------------------------------------------ *)
(** ** Exceptions and the frame monad *)

Inductive exn :=
| KeyError (key : string)
| ValueError
| TypeError
| AttributeError
| IndexError.

Inductive result (A : Type) : Type :=
| Ok (a : A)
| Raise (e : exn).

Arguments Ok {A} a.
Arguments Raise {A} e.

(** A computation over the frame it was handed: the frame is a shared mutable
    object, so what a computation wrote stays written when it raises. *)
Definition M (A : Type) : Type := DataFrame -> result A * DataFrame.

Definition ret {A} (a : A) : M A := fun df => (Ok a, df).

Definition raise {A} (e : exn) : M A := fun df => (Raise e, df).

Definition bind {A B} (m : M A) (k : A -> M B) : M B :=
  fun df =>
    match m df with
    | (Ok a, df') => k a df'
    | (Raise e, df') => (Raise e, df')
    end.

Definition lift {A} (r : result A) : M A := fun df => (r, df).

Notation "x <- m ;; k" := (bind m (fun x => k))
  (at level 61, m at next level, right associativity).
Notation "m ;;; k" := (bind m (fun _ => k))
  (at level 61, right associativity).

(** [df[name]] *)
Definition getitem (name : string) : M column :=
  fun df =>
    match lookup name df with
    | Some c => (Ok c, df)
    | None => (Raise (KeyError name), df)
    end.

(** [df[name] = c] *)
Definition setitem (name : string) (c : column) : M unit :=
  fun df => (Ok tt, set_column name c df).

(** [len(df)] *)
Definition get_len : M nat := fun df => (Ok (len df), df).

(** A computation that only reads the frame. *)
Definition read_only {A} (m : M A) : Prop := forall df, snd (m df) = df.

(* ------------------------------------------------------------------ *)
(** ** Series operations (pandas, numpy) *)

Local Open Scope Q_scope.

(** Arithmetic and comparisons on a column need numbers in every cell. *)
Fixpoint to_numeric (c : column) : result (list Q) :=
  match c with
  | [] => Ok []
  | VNum q :: rest =>
      match to_numeric rest with
      | Ok qs => Ok (q :: qs)
      | Raise e => Raise e
      end
  | _ :: _ => Raise TypeError
  end.

(** The [.dt] accessor needs a datetime in every cell. *)
Fixpoint dt (c : column) : result (list datetime) :=
  match c with
  | [] => Ok []
  | VTime t :: rest =>
      match dt rest with
      | Ok ts => Ok (t :: ts)
      | Raise e => Raise e
      end
  | _ :: _ => Raise AttributeError
  end.

Fixpoint to_dates (c : column) : result (list date) :=
  match c with
  | [] => Ok []
  | VDate d :: rest =>
      match to_dates rest with
      | Ok ds => Ok (d :: ds)
      | Raise e => Raise e
      end
  | _ :: _ => Raise TypeError
  end.

(** [Series.between(left, right)], both ends included. *)
Definition between (left right : fval Q) (xs : list Q) : list bool :=
  map (fun x => fle left (Fin x) && fle (Fin x) right) xs.

Definition count_true (bs : list bool) : nat :=
  List.length (filter (fun b => b) bs).

(** [Series.mean()] of a boolean series: NaN when it is empty. *)
Definition mean_bool (bs : list bool) : fval Q :=
  match bs with
  | [] => NaN
  | _ => Fin (Qnat (count_true bs) / Qnat (List.length bs))
  end.

Definition Qsum (xs : list Q) : Q := fold_right Qplus 0 xs.

(** [Series.mean()]: NaN when the series is empty. *)
Definition mean (xs : list Q) : fval Q :=
  match xs with
  | [] => NaN
  | _ => Fin (Qsum xs / Qnat (List.length xs))
  end.

(** The variance behind [Series.std()], with pandas' default [ddof = 1]:
    NaN when there are not more than [ddof] values. *)
Definition var (xs : list Q) : fval Q :=
  let n := List.length xs in
  if (n <=? 1)%nat then NaN
  else
    let avg := Qsum xs / Qnat n in
    Fin (Qsum (map (fun x => (avg - x) * (avg - x)) xs) / Qnat (n - 1)).

Definition fsqrt (v : fval Q) : fval R :=
  match v with
  | Fin q => match Qsgn q with Lt => NaN | _ => Fin (sqrt (Q2R q)) end
  | PInf => PInf
  | _ => NaN
  end.

(** [Series.std()] *)
Definition std (xs : list Q) : fval R := fsqrt (var xs).

Definition qmin (x y : Q) : Q := if Qle_bool x y then x else y.
Definition qmax (x y : Q) : Q := if Qle_bool x y then y else x.

(** [min], [max] of a group: NaN when it is empty. *)
Definition series_min (xs : list Q) : fval Q :=
  match xs with
  | [] => NaN
  | x :: rest => Fin (fold_left qmin rest x)
  end.

Definition series_max (xs : list Q) : fval Q :=
  match xs with
  | [] => NaN
  | x :: rest => Fin (fold_left qmax rest x)
  end.

Fixpoint insert_sorted (x : Q) (l : list Q) : list Q :=
  match l with
  | [] => [x]
  | y :: rest => if Qle_bool x y then x :: l else y :: insert_sorted x rest
  end.

(** Ascending sort. *)
Definition sort (xs : list Q) : list Q := fold_right insert_sorted [] xs.

(** [arr[i]] with Python's negative indices. *)
Definition py_nth (arr : list Q) (i : Z) : Q :=
  let n := Z.of_nat (List.length arr) in
  nth (Z.to_nat (if (i <? 0)%Z then (n + i)%Z else i)) arr 0.

(** The median of a group: the middle value of the sorted group, or the mean
    of the two middle values. *)
Definition median (xs : list Q) : fval Q :=
  match xs with
  | [] => NaN
  | _ =>
      let s := sort xs in
      let n := List.length xs in
      if Nat.even n
      then Fin ((nth (n / 2 - 1) s 0 + nth (n / 2) s 0) / 2)
      else Fin (nth (n / 2) s 0)
  end.

(** numpy's [_lerp] *)
Definition lerp (a b t : Q) : Q :=
  if Qle_bool (1 # 2) t then b - (b - a) * (1 - t) else a + (b - a) * t.

(** [np.percentile(xs, p)] with the default method, ["linear"]. *)
Definition percentile (xs : list Q) (p : Q) : result Q :=
  let q := p / 100 in
  if negb (Qle_bool 0 q && Qle_bool q 1) then Raise ValueError
  else
    match xs with
    | [] => Raise IndexError
    | _ =>
        let arr := sort xs in
        let n := Qnat (List.length xs) in
        let virtual_index := (n - 1) * q in
        let above := Qle_bool (n - 1) virtual_index in
        let below := negb (Qle_bool 0 virtual_index) in
        let previous_index :=
          if below then 0%Z else if above then (-1)%Z
          else Qfloor virtual_index in
        let next_index :=
          if below then 0%Z else if above then (-1)%Z
          else (Qfloor virtual_index + 1)%Z in
        let gamma := virtual_index - inject_Z previous_index in
        Ok (lerp (py_nth arr previous_index) (py_nth arr next_index) gamma)
    end.

(* ------------------------------------------------------------------ *)
(** ** groupby *)

Section GroupBy.
Context {K : Type}.
Variable cmp : K -> K -> comparison.

(** Adds one row to the groups, which are kept in ascending key order; the
    values of a group stay in row order. *)
Fixpoint insert_group (k : K) (v : Q) (gs : list (K * list Q))
  : list (K * list Q) :=
  match gs with
  | [] => [(k, [v])]
  | (k', vs) :: rest =>
      match cmp k k' with
      | Lt => (k, [v]) :: gs
      | Eq => (k', vs ++ [v]) :: rest
      | Gt => (k', vs) :: insert_group k v rest
      end
  end.

(** [groupby(keys)[values]], with the default [sort=True]: one group per
    distinct key, in ascending key order. *)
Definition groupby (keys : list K) (values : list Q) : list (K * list Q) :=
  fold_left (fun gs kv => insert_group (fst kv) (snd kv) gs)
            (combine keys values) [].
End GroupBy.

(** The key of a row of [compute_agp]: [hour + minute / 60]. *)
Definition time_of_day (t : datetime) : Q :=
  Qnat (hour t) + Qnat (minute t) / 60.

(* ------------------------------------------------------------------ *)
(** ** The data-processing functions *)

(** The dictionary [compute_agp_summary] returns, one field per key, in the
    order of the keys. *)
Record Summary := mkSummary {
  TotalReadings : nat;
  TimeInTarget : fval Q;
  TimeBelow : fval Q;
  TimeVeryLow : fval Q;
  TimeAbove : fval Q;
  TimeVeryHigh : fval Q;
  MeanGlucose : fval Q;
  CV : fval R
}.

Record DailyRow := mkDailyRow {
  Date : date;
  Min : fval Q;
  Max : fval Q;
  Mean : fval Q
}.

Record AgpRow := mkAgpRow {
  TimeOfDay : Q;
  Median : fval Q;
  Percentile5 : Q;
  Percentile25 : Q;
  Percentile75 : Q;
  Percentile95 : Q
}.

Definition target_range : fval Q * fval Q := (Fin 70, Fin 180).
Definition low_range : fval Q * fval Q := (Fin 54, Fin 69).
Definition very_low_range : fval Q * fval Q := (Fin 0, Fin 53).
Definition high_range : fval Q * fval Q := (Fin 181, Fin 250).
Definition very_high_range : fval Q * fval Q := (Fin 251, PInf).

(** [data['Glucose']], used as numbers. *)
Definition glucose : M (list Q) :=
  c <- getitem "Glucose" ;; lift (to_numeric c).

(** [data['Glucose'].between( *range).mean() * 100] *)
Definition time_in (range : fval Q * fval Q) : M (fval Q) :=
  g <- glucose ;;
  ret (fmulQ (mean_bool (between (fst range) (snd range) g)) (Fin 100)).

(** [(data['Glucose'].std() / data['Glucose'].mean()) * 100] *)
Definition cv_of (xs ys : list Q) : fval R :=
  fmulR (fdivR (std xs) (fQ2R (mean ys))) (Fin 100%R).

Definition compute_agp_summary : M Summary :=
  n <- get_len ;;
  target <- time_in target_range ;;
  low <- time_in low_range ;;
  very_low <- time_in very_low_range ;;
  high <- time_in high_range ;;
  very_high <- time_in very_high_range ;;
  g <- glucose ;;
  g1 <- glucose ;;
  g2 <- glucose ;;
  ret (mkSummary n target low very_low high very_high
                 (mean g) (cv_of g1 g2)).

(** [data.groupby(key)['Glucose']], used as numbers: the grouped frame
    raises a [KeyError] of its own wording for a column it does not have. *)
Definition grouped_glucose : M (list Q) :=
  fun df =>
    match lookup "Glucose" df with
    | Some c => (to_numeric c, df)
    | None => (Raise (KeyError "Column not found: Glucose"), df)
    end.

Definition daily_row (g : date * list Q) : DailyRow :=
  mkDailyRow (fst g) (series_min (snd g)) (series_max (snd g)) (mean (snd g)).

Definition compute_daily_profiles : M (list DailyRow) :=
  ts <- getitem "Timestamp" ;;
  ts <- lift (dt ts) ;;
  setitem "Date" (map (fun t => VDate (date_of t)) ts) ;;;
  keys <- getitem "Date" ;;
  keys <- lift (to_dates keys) ;;
  g <- grouped_glucose ;;
  ret (map daily_row (groupby date_compare keys g)).

Definition agp_row (g : Q * list Q) : result AgpRow :=
  match percentile (snd g) 5, percentile (snd g) 25,
        percentile (snd g) 75, percentile (snd g) 95 with
  | Ok p5, Ok p25, Ok p75, Ok p95 =>
      Ok (mkAgpRow (fst g) (median (snd g)) p5 p25 p75 p95)
  | Raise e, _, _, _ => Raise e
  | _, Raise e, _, _ => Raise e
  | _, _, Raise e, _ => Raise e
  | _, _, _, Raise e => Raise e
  end.

Fixpoint map_result {A B} (f : A -> result B) (l : list A) : result (list B) :=
  match l with
  | [] => Ok []
  | a :: rest =>
      match f a with
      | Ok b => match map_result f rest with
                | Ok bs => Ok (b :: bs)
                | Raise e => Raise e
                end
      | Raise e => Raise e
      end
  end.

Definition compute_agp : M (list AgpRow) :=
  h <- getitem "Timestamp" ;;
  h <- lift (dt h) ;;
  m <- getitem "Timestamp" ;;
  m <- lift (dt m) ;;
  setitem "Time of Day"
    (map (fun hm => VNum (Qnat (hour (fst hm)) + Qnat (minute (snd hm)) / 60))
         (combine h m)) ;;;
  keys <- getitem "Time of Day" ;;
  keys <- lift (to_numeric keys) ;;
  g <- grouped_glucose ;;
  lift (map_result agp_row (groupby Qcompare keys g)).

(** ** Ingestion *)

Definition timestamp_header : string := "Χρονική σήμανση συσκευής".
Definition glucose_header : string := "Ιστορική γλυκόζη mg/dL".

(** [DataFrame.rename(columns=mapping)]: names the mapping does not mention
    stay, names of the mapping that the frame does not have are ignored. *)
Definition renamed (mapping : list (string * string)) (n : string) : string :=
  match find (fun kv => String.eqb (fst kv) n) mapping with
  | Some kv => snd kv
  | None => n
  end.

Definition rename (mapping : list (string * string)) (df : DataFrame)
  : DataFrame :=
  map (fun nc => (renamed mapping (fst nc), snd nc)) df.

Definition column_mapping : list (string * string) :=
  [(timestamp_header, "Timestamp"%string); (glucose_header, "Glucose"%string)].

Section Ingestion.
(** The conversion [pd.to_datetime] applies to one value; [None] when the
    value cannot be read as a date-time. *)
Variable to_datetime_scalar : cell -> option datetime.

(** [pd.to_datetime(column)] with the default [errors='raise']. *)
Fixpoint to_datetime (c : column) : result column :=
  match c with
  | [] => Ok []
  | v :: rest =>
      match to_datetime_scalar v with
      | Some t =>
          match to_datetime rest with
          | Ok ts => Ok (VTime t :: ts)
          | Raise e => Raise e
          end
      | None => Raise ValueError
      end
  end.

(** A workbook: its sheets by name. *)
Definition workbook := list (string * DataFrame).

(** [ExcelFile.parse(sheet_name)] *)
Definition parse (sheet_name : string) (wb : workbook) : result DataFrame :=
  match find (fun s => String.eqb (fst s) sheet_name) wb with
  | Some s => Ok (snd s)
  | None => Raise ValueError
  end.

Definition preprocess : M unit :=
  c <- getitem timestamp_header ;;
  c <- lift (to_datetime c) ;;
  setitem timestamp_header c ;;;
  fun df => (Ok tt, rename column_mapping df).

Definition load_data (file : workbook) : result DataFrame :=
  match parse "Sheet1" file with
  | Ok df =>
      match preprocess df with
      | (Ok _, df') => Ok df'
      | (Raise e, _) => Raise e
      end
  | Raise e => Raise e
  end.
End Ingestion.

(* ------------------------------------------------------------------ *)
(** ** Series held by a frame *)

Record Reading := mkReading { timestamp : datetime; glucose_mg_dl : Q }.

Definition Series := list Reading.

Definition timestamps (s : Series) : list datetime := map timestamp s.
Definition values (s : Series) : list Q := map glucose_mg_dl s.

(** The frame [df] holds the series [s] in its columns [Timestamp] and
    [Glucose]; it may have other columns. *)
Definition holds (df : DataFrame) (s : Series) : Prop :=
  lookup "Timestamp" df = Some (map VTime (timestamps s)) /\
  lookup "Glucose" df = Some (map VNum (values s)) /\
  len df = List.length s.

(** The frame with the two columns of a series and nothing else. *)
Definition frame_of (s : Series) : DataFrame :=
  [("Timestamp"%string, map VTime (timestamps s));
   ("Glucose"%string, map VNum (values s))].

(** The percentage [time_in] computes from the values of a series. *)
Definition pct (range : fval Q * fval Q) (xs : list Q) : fval Q :=
  fmulQ (mean_bool (between (fst range) (snd range) xs)) (Fin 100).

(** The values of [xs] that lie in the closed interval [[lo, hi]]. *)
Definition in_closed (lo hi : Q) (x : Q) : bool :=
  Qle_bool lo x && Qle_bool x hi.

(** The values of [xs] that lie in the half-open interval [[lo, hi)]. *)
Definition in_half_open (lo hi : Q) (x : Q) : bool :=
  Qle_bool lo x && negb (Qle_bool hi x).

Definition count (f : Q -> bool) (xs : list Q) : nat :=
  List.length (filter f xs).

(** [count / total * 100] *)
Definition percentage (n total : nat) : Q := Qnat n / Qnat total * 100.

(** ** What a grouping has to deliver *)

Section GroupSpec.
Context {K : Type}.
Variable cmp : K -> K -> comparison.

Definition same_key (k : K) (kv : K * Q) : bool :=
  match cmp (fst kv) k with Eq => true | _ => false end.

(** The values of the rows whose key is [k], in row order. *)
Definition group_of (k : K) (rows : list (K * Q)) : list Q :=
  map snd (filter (same_key k) rows).

Definition key_lt (a b : K * list Q) : Prop := cmp (fst a) (fst b) = Lt.

(** [gs] is the grouping of [rows]: keys strictly ascending (so each key
    once), each group the values of the rows with its key and not empty,
    and a group for the key of every row. *)
Definition groups_ok (rows : list (K * Q)) (gs : list (K * list Q)) : Prop :=
  StronglySorted key_lt gs /\
  (forall k vs, In (k, vs) gs -> vs = group_of k rows /\ vs <> []) /\
  (forall kv, In kv rows ->
              exists k vs, In (k, vs) gs /\ cmp (fst kv) k = Eq).
End GroupSpec.

(** ** Percentiles by linear interpolation between order statistics

    The conventional definition: in the sorted sample of size [n] the
    percentile [p] sits at position [p / 100 * (n - 1)], and its value is
    interpolated linearly between the two order statistics that bracket
    that position. *)

Definition position (p : Q) (n : nat) : Q := p / 100 * (Qnat n - 1).

Definition interp (s : list Q) (pos : Q) : Q :=
  nth (Z.to_nat (Qfloor pos)) s 0 +
  (pos - inject_Z (Qfloor pos)) *
  (nth (Z.to_nat (Qceiling pos)) s 0 - nth (Z.to_nat (Qfloor pos)) s 0).

Definition is_percentile (p : Q) (xs : list Q) (v : Q) : Prop :=
  exists s, Permutation s xs /\ StronglySorted Qle s /\
            v == interp s (position p (List.length xs)).

(** ** Readings of a series by date and by time of day *)

Definition date_eqb (a b : date) : bool :=
  Nat.eqb (dyear a) (dyear b) && Nat.eqb (dmonth a) (dmonth b) &&
  Nat.eqb (dday a) (dday b).

(** The glucose values of the readings taken on the date [d], in series
    order. *)
Definition readings_on (d : date) (s : Series) : list Q :=
  values (filter (fun r => date_eqb (date_of (timestamp r)) d) s).

(** The glucose values of the readings whose time-of-day coordinate is
    exactly [t], in series order. *)
Definition readings_at (t : Q) (s : Series) : list Q :=
  values (filter (fun r => Qeq_bool (time_of_day (timestamp r)) t) s).

Definition is_min (xs : list Q) (v : fval Q) : Prop :=
  exists m, v = Fin m /\ In m xs /\ forall x, In x xs -> m <= x.

Definition is_max (xs : list Q) (v : fval Q) : Prop :=
  exists m, v = Fin m /\ In m xs /\ forall x, In x xs -> x <= m.

(** What [agp_row] returns for a group, in terms of the interpolation. *)
Definition agp_row_of (g : Q * list Q) (r : AgpRow) : Prop :=
  let at_ p := interp (sort (snd g)) (position p (List.length (snd g))) in
  TimeOfDay r = fst g /\
  (exists m, Median r = Fin m /\ m == at_ 50) /\
  Percentile5 r == at_ 5 /\ Percentile25 r == at_ 25 /\
  Percentile75 r == at_ 75 /\ Percentile95 r == at_ 95.

Definition finite (v : fval Q) : Prop := exists q, v = Fin q.

(** The series with every glucose value multiplied by [k]. *)
Definition scale (k : Q) (s : Series) : Series :=
  map (fun r => mkReading (timestamp r) (k * glucose_mg_dl r)) s.

(** ** Example inputs *)

Definition example_series : Series :=
  [mkReading (mkDatetime 2024 1 1 8 0 0) 70;
   mkReading (mkDatetime 2024 1 1 8 0 0) 180;
   mkReading (mkDatetime 2024 1 2 8 0 0) 125;
   mkReading (mkDatetime 2024 1 2 9 30 0) (139 # 2)].

Definition empty_frame : DataFrame := frame_of [].

(** A conversion that accepts the cells that already are date-times. *)
Definition datetime_cells_only (v : cell) : option datetime :=
  match v with VTime t => Some t | _ => None end.

(** A workbook whose sheet has the timestamp column and no glucose column. *)
Definition timestamps_only : workbook :=
  [("Sheet1"%string,
    [(timestamp_header, [VTime (mkDatetime 2024 1 1 8 0 0)])])].

(** A workbook whose sheet has both columns. *)
Definition both_columns : workbook :=
  [("Sheet1"%string,
    [(timestamp_header, [VTime (mkDatetime 2024 1 1 8 0 0)]);
     (glucose_header, [VNum 125])])].

(** One reading of 53.5 mg/dL. *)
Definition gap_series : Series :=
  [mkReading (mkDatetime 2024 1 1 8 0 0) (107 # 2)].

(* ------------------------------------------------------------------ *)
(** ** Presentation: the indicator, the two charts and the report *)

(** IEEE 754 addition, without rounding. *)
Definition faddQ (a b : fval Q) : fval Q :=
  match a, b with
  | NaN, _ | _, NaN => NaN
  | Fin x, Fin y => Fin (x + y)
  | PInf, NInf | NInf, PInf => NaN
  | PInf, _ | _, PInf => PInf
  | NInf, _ | _, NInf => NInf
  end.

(** [gmi = 3.31 + 0.02392 * summary['Mean Glucose (mg/dL)']] *)
Definition gmi (mean_glucose : fval Q) : fval Q :=
  faddQ (Fin (331 # 100)) (fmulQ (Fin (2392 # 100000)) mean_glucose).

(** One call [ax.bar([0], [pct], bottom=cumulative, color=color, ...)]: the
    bar drawn from [bottom] to [bottom + pct]. *)
Record Bar := mkBar {
  bar_height : fval Q;
  bar_bottom : fval Q;
  bar_color : string
}.

Definition zip3 {A B C} (a : list A) (b : list B) (c : list C)
  : list (A * (B * C)) :=
  combine a (combine b c).

(** The loop of [plot_time_in_range_stacked_vertical]: one bar per item, on
    top of what has been drawn; [cumulative += pct] after each bar.  A bar
    takes the value [cumulative] has when it is drawn: the update in place
    that follows does not move it. *)
Fixpoint stack_bars (cumulative : fval Q)
         (items : list (string * (fval Q * string))) : list Bar :=
  match items with
  | [] => []
  | (_, (pct, color)) :: rest =>
      mkBar pct cumulative color :: stack_bars (faddQ cumulative pct) rest
  end.

(** The figure is modelled by the bars drawn on it; the y axis is fixed to
    [0 .. 100]. *)
Definition plot_time_in_range_stacked_vertical (summary : Summary) : list Bar :=
  let ranges :=
    ["Very Low (<54 mg/dL)"; "Low (54-69 mg/dL)"; "Target (70-180 mg/dL)";
     "High (181-250 mg/dL)"; "Very High (>250 mg/dL)"]%string in
  let percentages :=
    [TimeVeryLow summary; TimeBelow summary; TimeInTarget summary;
     TimeAbove summary; TimeVeryHigh summary] in
  let colors :=
    ["#ff6666"; "#ffc000"; "#8fd9b6"; "#ffcc99"; "#ff9999"]%string in
  stack_bars (Fin 0) (zip3 ranges percentages colors).

(** The top of a bar. *)
Definition bar_top (b : Bar) : fval Q := faddQ (bar_bottom b) (bar_height b).

(** What [plot_agp] draws: the two shaded bands, given by their lower and
    upper curve over the time of day, the median line and the target span. *)
Record AgpFigure := mkAgpFigure {
  band_5_95 : list (Q * (Q * Q));
  band_25_75 : list (Q * (Q * Q));
  median_line : list (Q * fval Q);
  target_span : Q * Q
}.

(** The curves [plot_agp] hands to [fill_between] and [plot]. *)
Definition agp_curves (agp_data : list AgpRow) : AgpFigure :=
  mkAgpFigure
    (map (fun r => (TimeOfDay r, (Percentile5 r, Percentile95 r))) agp_data)
    (map (fun r => (TimeOfDay r, (Percentile25 r, Percentile75 r))) agp_data)
    (map (fun r => (TimeOfDay r, Median r)) agp_data)
    (70, 180).

(** [plot_agp]: the first call is [ax.fill_between] on the percentile
    columns.  In a curve without rows these columns hold no numbers, and
    [fill_between] raises [TypeError]. *)
Definition plot_agp (agp_data : list AgpRow) : result AgpFigure :=
  match agp_data with
  | [] => Raise TypeError
  | _ => Ok (agp_curves agp_data)
  end.

(** What the page shows for an uploaded file: the values handed to the
    widgets, before they are formatted. *)
Record Report := mkReport {
  shown_mean : fval Q;
  shown_gmi : fval Q;
  time_in_range_figure : list Bar;
  agp_figure : AgpFigure;
  shown_daily_profiles : list DailyRow
}.

(** The body of [if uploaded_file:], after [load_data]: the three
    computations run one after the other on the same frame, each figure
    drawn as soon as its data are there. *)
Definition render : M Report :=
  summary <- compute_agp_summary ;;
  agp_data <- compute_agp ;;
  figure <- lift (plot_agp agp_data) ;;
  daily_profiles <- compute_daily_profiles ;;
  ret (mkReport (MeanGlucose summary) (gmi (MeanGlucose summary))
                (plot_time_in_range_stacked_vertical summary)
                figure daily_profiles).

Definition agp_report (conv : cell -> option datetime) (uploaded_file : workbook)
  : result Report :=
  match load_data conv uploaded_file with
  | Ok data => fst (render data)
  | Raise e => Raise e
  end.

(** The series made of a column of timestamps and a column of values. *)
Definition series_of (ts : list datetime) (gs : list Q) : Series :=
  map (fun p => mkReading (fst p) (snd p)) (combine ts gs).

(** A timestamp as the clock allows it. *)
Definition valid_time (t : datetime) : Prop :=
  (hour t < 24)%nat /\ (minute t < 60)%nat.

(** In how many of the five ranges of the summary a value is counted. *)
Definition bucket_hits (x : Q) : nat :=
  ((if in_closed 0 53 x then 1 else 0) +
   (if in_closed 54 69 x then 1 else 0) +
   (if in_closed 70 180 x then 1 else 0) +
   (if in_closed 181 250 x then 1 else 0) +
   (if Qle_bool 251 x && true then 1 else 0))%nat.

(** A whole number that is not negative, as a glucose meter reports. *)
Definition whole_reading (x : Q) : Prop :=
  exists z, (0 <= z)%Z /\ x = inject_Z z.

(* ------------------------------------------------------------------ *)
(** ** The coefficient of variation in the arithmetic of the program

    The summary computes in IEEE 754 binary64.  The definitions above leave
    the rounding out; these keep it, for the one expression
    [data['Glucose'].std() / data['Glucose'].mean() * 100]. *)

Module Float64.
Import PrimFloat.
Local Open Scope float_scope.

(** The sum of a column, its values added one after the other.  For two
    values every order of adding gives the same number. *)
Definition sum (xs : list float) : float := fold_left add xs 0.

Definition count (xs : list float) : float :=
  of_uint63 (Uint63.of_Z (Z.of_nat (List.length xs))).

(** [Series.mean()] *)
Definition mean (xs : list float) : float := sum xs / count xs.

(** The variance behind [Series.std()], [ddof = 1]: the mean first, then
    the squares of the distances to it. *)
Definition var (xs : list float) : float :=
  let avg := sum xs / count xs in
  sum (map (fun x => (avg - x) * (avg - x)) xs) / (count xs - 1).

(** [Series.std()] *)
Definition std (xs : list float) : float := sqrt (var xs).

(** [(data['Glucose'].std() / data['Glucose'].mean()) * 100] *)
Definition cv (xs : list float) : float := std xs / mean xs * 100.

(** Every value multiplied by [k]. *)
Definition scale (k : float) (xs : list float) : list float :=
  map (fun x => k * x) xs.

(** Two readings, of 50 and 58 mg/dL, and two factors. *)
Definition two_readings : list float := [50; 58].
Definition ten : float := 10.
Definition two : float := 2.
End Float64.

(* ------------------------------------------------------------------ *)
(** ** The editable table and its store *)

(** A row of [editable_data (id INTEGER, name STRING, age INTEGER,
    email STRING)], every cell holding a value. *)
Record person := mkPerson {
  person_id : Z;
  person_name : string;
  person_age : Z;
  person_email : string
}.

(** The store [data_store.duckdb]: its tables by name.  Every table the
    program creates has the columns of [person]. *)
Definition Database := list (string * list person).

Inductive db_error :=
| CatalogException
| ConversionException.

Inductive db_result (A : Type) : Type :=
| Done (a : A)
| Failed (e : db_error).

Arguments Done {A} a.
Arguments Failed {A} e.

(** The range of the column type INTEGER, 32 bits with sign. *)
Definition fits_integer (z : Z) : bool :=
  ((- 2147483648 <=? z) && (z <=? 2147483647))%Z.

Definition insertable (p : person) : bool :=
  fits_integer (person_id p) && fits_integer (person_age p).

Fixpoint table (name : string) (db : Database) : option (list person) :=
  match db with
  | [] => None
  | (n, rows) :: rest => if String.eqb n name then Some rows else table name rest
  end.

Fixpoint set_table (name : string) (rows : list person) (db : Database)
  : Database :=
  match db with
  | [] => [(name, rows)]
  | (n, rows') :: rest =>
      if String.eqb n name then (n, rows) :: rest
      else (n, rows') :: set_table name rows rest
  end.

(** [CREATE TABLE IF NOT EXISTS name (...)] *)
Definition create_table_if_not_exists (name : string) (db : Database)
  : Database :=
  match table name db with
  | Some _ => db
  | None => set_table name [] db
  end.

(** [DELETE FROM name] *)
Definition delete_from (name : string) (db : Database) : Database :=
  set_table name [] db.

(** [INSERT INTO name SELECT * FROM df]: all rows or, when a number does not
    fit its column, none. *)
Definition insert_into (name : string) (df : list person) (db : Database)
  : db_result unit * Database :=
  match table name db with
  | None => (Failed CatalogException, db)
  | Some rows =>
      if forallb insertable df then (Done tt, set_table name (rows ++ df) db)
      else (Failed ConversionException, db)
  end.

(** The three statements run one after the other, each committed on its
    own; a statement that fails ends the function. *)
Definition save_to_duckdb (df : list person) (table_name : string)
           (db : Database) : db_result unit * Database :=
  let db := create_table_if_not_exists table_name db in
  let db := delete_from table_name db in
  insert_into table_name df db.

Definition default_table : string := "editable_data".

(** [SELECT * FROM editable_data], behind the button that loads. *)
Definition load_from_database (db : Database) : db_result (list person) :=
  match table default_table db with
  | Some rows => Done rows
  | None => Failed CatalogException
  end.

(** [initial_data] *)
Definition initial_data : list person :=
  [mkPerson 1 "Alice" 30 "alice@example.com";
   mkPerson 2 "Bob" 25 "bob@example.com";
   mkPerson 3 "Charlie" 35 "charlie@example.com"].

(** A frame whose timestamps were read but which has no glucose column. *)
Definition frame_without_glucose : DataFrame :=
  [("Timestamp"%string, [VTime (mkDatetime 2024 1 1 8 0 0)])].

(** A frame as a sheet holds it before [load_data]: text in the timestamp
    column. *)
Definition raw_frame : DataFrame :=
  [("Timestamp"%string, [VStr "2024-01-01 08:00"]);
   ("Glucose"%string, [VNum 125])].

(* ------------------------------------------------------------------ *)
(** * Properties *)

(** ** The frame monad *)

Lemma read_only_ret {A} (a : A) : read_only (ret a).
Proof. intros df; reflexivity. Qed.

Lemma read_only_lift {A} (r : result A) : read_only (lift r).
Proof. intros df; reflexivity. Qed.

Lemma read_only_getitem name : read_only (getitem name).
Proof. intros df; unfold getitem; destruct (lookup name df); reflexivity. Qed.

Lemma read_only_get_len : read_only get_len.
Proof. intros df; reflexivity. Qed.

Lemma read_only_bind {A B} (m : M A) (k : A -> M B) :
  read_only m -> (forall a, read_only (k a)) -> read_only (bind m k).
Proof.
  intros Hm Hk df. unfold bind.
  specialize (Hm df). destruct (m df) as [[a | e] df']; simpl in *; subst.
  - apply Hk.
  - reflexivity.
Qed.

Create HintDb frame.
#[export] Hint Resolve read_only_ret read_only_lift read_only_getitem
  read_only_get_len : frame.

Ltac read_only_tac :=
  repeat (first [ apply read_only_bind; [ | intros ? ]
                | solve [ auto with frame ] ]).

Lemma read_only_glucose : read_only glucose.
Proof. unfold glucose. read_only_tac. Qed.

#[export] Hint Resolve read_only_glucose : frame.

Lemma read_only_grouped_glucose : read_only grouped_glucose.
Proof.
  intros df. unfold grouped_glucose.
  destruct (lookup "Glucose" df); reflexivity.
Qed.

#[export] Hint Resolve read_only_grouped_glucose : frame.

Lemma read_only_time_in range : read_only (time_in range).
Proof. unfold time_in. read_only_tac. Qed.

#[export] Hint Resolve read_only_time_in : frame.

Lemma lookup_set_same name c df : lookup name (set_column name c df) = Some c.
Proof.
  induction df as [| [n c'] rest IH]; simpl.
  - now rewrite String.eqb_refl.
  - destruct (String.eqb n name) eqn:E; simpl; rewrite E; auto.
Qed.

Lemma lookup_set_other name name' c df :
  name <> name' -> lookup name' (set_column name c df) = lookup name' df.
Proof.
  intros Hne. induction df as [| [n c'] rest IH]; simpl.
  - destruct (String.eqb name name') eqn:E; auto.
    apply String.eqb_eq in E. contradiction.
  - destruct (String.eqb n name) eqn:E; simpl.
    + apply String.eqb_eq in E. subst n.
      destruct (String.eqb name name') eqn:E'; auto.
      apply String.eqb_eq in E'. contradiction.
    + now rewrite IH.
Qed.

Lemma set_column_names name c df :
  In name (column_names (set_column name c df)).
Proof.
  induction df as [| [n c'] rest IH]; simpl; auto.
  destruct (String.eqb n name) eqn:E; simpl; auto.
  apply String.eqb_eq in E. auto.
Qed.

Lemma to_numeric_VNum qs : to_numeric (map VNum qs) = Ok qs.
Proof. induction qs; simpl; [| rewrite IHqs]; reflexivity. Qed.

Lemma dt_VTime ts : dt (map VTime ts) = Ok ts.
Proof. induction ts; simpl; [| rewrite IHts]; reflexivity. Qed.

Lemma to_dates_VDate ds : to_dates (map VDate ds) = Ok ds.
Proof. induction ds; simpl; [| rewrite IHds]; reflexivity. Qed.

(** ** The summary, on a frame whose [Glucose] column holds numbers *)

Lemma bind_ok {A B} (m : M A) (k : A -> M B) df a df' :
  m df = (Ok a, df') -> bind m k df = k a df'.
Proof. intros H. unfold bind. now rewrite H. Qed.

Lemma bind_raise {A B} (m : M A) (k : A -> M B) df e df' :
  m df = (Raise e, df') -> bind m k df = (Raise e, df').
Proof. intros H. unfold bind. now rewrite H. Qed.

Lemma getitem_ok name df c :
  lookup name df = Some c -> getitem name df = (Ok c, df).
Proof. intros H. unfold getitem. now rewrite H. Qed.

Lemma getitem_raise name df :
  lookup name df = None -> getitem name df = (Raise (KeyError name), df).
Proof. intros H. unfold getitem. now rewrite H. Qed.

Lemma glucose_ok df gs :
  lookup "Glucose" df = Some (map VNum gs) -> glucose df = (Ok gs, df).
Proof.
  intros H. unfold glucose.
  rewrite (bind_ok _ _ _ _ _ (getitem_ok _ _ _ H)).
  unfold lift. now rewrite to_numeric_VNum.
Qed.

Lemma grouped_glucose_ok df gs :
  lookup "Glucose" df = Some (map VNum gs) -> grouped_glucose df = (Ok gs, df).
Proof.
  intros H. unfold grouped_glucose. now rewrite H, to_numeric_VNum.
Qed.

Lemma time_in_ok range df gs :
  lookup "Glucose" df = Some (map VNum gs) ->
  time_in range df = (Ok (pct range gs), df).
Proof.
  intros H. unfold time_in.
  now rewrite (bind_ok _ _ _ _ _ (glucose_ok _ _ H)).
Qed.

Lemma compute_agp_summary_eq df gs :
  lookup "Glucose" df = Some (map VNum gs) ->
  compute_agp_summary df =
  (Ok (mkSummary (len df)
         (pct target_range gs) (pct low_range gs) (pct very_low_range gs)
         (pct high_range gs) (pct very_high_range gs)
         (mean gs) (cv_of gs gs)), df).
Proof.
  intros H.
  unfold compute_agp_summary.
  rewrite (bind_ok get_len _ df (len df) df eq_refl).
  do 5 rewrite (bind_ok _ _ _ _ _ (time_in_ok _ _ _ H)).
  do 3 rewrite (bind_ok _ _ _ _ _ (glucose_ok _ _ H)).
  reflexivity.
Qed.

Lemma compute_agp_summary_holds df s :
  holds df s ->
  compute_agp_summary df =
  (Ok (mkSummary (List.length s)
         (pct target_range (values s)) (pct low_range (values s))
         (pct very_low_range (values s)) (pct high_range (values s))
         (pct very_high_range (values s))
         (mean (values s)) (cv_of (values s) (values s))), df).
Proof.
  intros (_ & Hg & Hl). rewrite (compute_agp_summary_eq _ _ Hg), Hl. reflexivity.
Qed.

Lemma holds_frame_of s : holds (frame_of s) s.
Proof.
  unfold holds, frame_of; simpl. repeat split.
  unfold timestamps. now rewrite !length_map.
Qed.

(** ** Frame effects *)

Lemma read_only_compute_agp_summary : read_only compute_agp_summary.
Proof. unfold compute_agp_summary. read_only_tac. Qed.

Lemma snd_bind_read_only {A B} (m : M A) (k : A -> M B) df :
  (forall a, read_only (k a)) -> snd (bind m k df) = snd (m df).
Proof.
  intros Hk. unfold bind. destruct (m df) as [[a | e] df']; simpl; auto.
  apply Hk.
Qed.

Lemma bind_lift {A B} (r : result A) (k : A -> M B) df :
  bind (lift r) k df =
  match r with Ok a => k a df | Raise e => (Raise e, df) end.
Proof. unfold bind, lift. now destruct r. Qed.

Lemma daily_frame_effect df :
  snd (compute_daily_profiles df) =
  match lookup "Timestamp" df with
  | Some c =>
      match dt c with
      | Ok ts => set_column "Date" (map (fun t => VDate (date_of t)) ts) df
      | Raise _ => df
      end
  | None => df
  end.
Proof.
  unfold compute_daily_profiles.
  destruct (lookup "Timestamp" df) as [c |] eqn:Hc.
  - rewrite (bind_ok _ _ _ _ _ (getitem_ok _ _ _ Hc)). cbv beta.
    rewrite bind_lift.
    destruct (dt c) as [ts | e]; [| reflexivity].
    rewrite snd_bind_read_only; [reflexivity |].
    intros []. read_only_tac.
  - now rewrite (bind_raise _ _ _ _ _ (getitem_raise _ _ Hc)).
Qed.

Lemma combine_diag {A B C} (f : A -> B) (g : A -> C) (l : list A) :
  combine (map f l) (map g l) = map (fun a => (f a, g a)) l.
Proof. induction l; simpl; congruence. Qed.

Lemma time_of_day_column ts :
  map (fun hm => VNum (Qnat (hour (fst hm)) + Qnat (minute (snd hm)) / 60))
      (combine ts ts) =
  map (fun t => VNum (time_of_day t)) ts.
Proof. induction ts; simpl; [| rewrite IHts]; reflexivity. Qed.

Lemma agp_frame_effect df :
  snd (compute_agp df) =
  match lookup "Timestamp" df with
  | Some c =>
      match dt c with
      | Ok ts => set_column "Time of Day"
                            (map (fun t => VNum (time_of_day t)) ts) df
      | Raise _ => df
      end
  | None => df
  end.
Proof.
  unfold compute_agp.
  destruct (lookup "Timestamp" df) as [c |] eqn:Hc.
  - rewrite (bind_ok _ _ _ _ _ (getitem_ok _ _ _ Hc)). cbv beta.
    rewrite bind_lift.
    destruct (dt c) as [ts | e] eqn:Hdt; [| reflexivity].
    rewrite (bind_ok _ _ _ _ _ (getitem_ok _ _ _ Hc)). cbv beta.
    rewrite bind_lift, Hdt.
    rewrite snd_bind_read_only.
    + simpl. now rewrite time_of_day_column.
    + intros []. read_only_tac.
  - now rewrite (bind_raise _ _ _ _ _ (getitem_raise _ _ Hc)).
Qed.

(** ** The two grouped computations, on a frame that holds a series *)

Lemma compute_daily_profiles_holds df s :
  holds df s ->
  compute_daily_profiles df =
  (Ok (map daily_row
           (groupby date_compare (map date_of (timestamps s)) (values s))),
   set_column "Date" (map VDate (map date_of (timestamps s))) df).
Proof.
  intros (Ht & Hg & _). unfold compute_daily_profiles.
  rewrite (bind_ok _ _ _ _ _ (getitem_ok _ _ _ Ht)). cbv beta.
  rewrite (bind_ok (lift (dt _)) _ df (timestamps s) df)
    by (unfold lift; now rewrite dt_VTime). cbv beta.
  rewrite <- map_map.
  set (df' := set_column "Date" _ df).
  rewrite (bind_ok (setitem _ _) _ df tt df') by reflexivity. cbv beta.
  rewrite (bind_ok (getitem "Date") _ df' _ df')
    by (apply getitem_ok; apply lookup_set_same). cbv beta.
  rewrite (bind_ok (lift (to_dates _)) _ df' (map date_of (timestamps s)) df')
    by (unfold lift; now rewrite to_dates_VDate). cbv beta.
  rewrite (bind_ok grouped_glucose _ df' (values s) df'); [reflexivity |].
  apply grouped_glucose_ok. unfold df'. rewrite lookup_set_other; [exact Hg | discriminate].
Qed.

Lemma compute_agp_holds df s :
  holds df s ->
  compute_agp df =
  (map_result agp_row
     (groupby Qcompare (map time_of_day (timestamps s)) (values s)),
   set_column "Time of Day" (map VNum (map time_of_day (timestamps s))) df).
Proof.
  intros (Ht & Hg & _). unfold compute_agp.
  rewrite (bind_ok _ _ _ _ _ (getitem_ok _ _ _ Ht)). cbv beta.
  rewrite (bind_ok (lift (dt _)) _ df (timestamps s) df)
    by (unfold lift; now rewrite dt_VTime). cbv beta.
  rewrite (bind_ok _ _ _ _ _ (getitem_ok _ _ _ Ht)). cbv beta.
  rewrite (bind_ok (lift (dt _)) _ df (timestamps s) df)
    by (unfold lift; now rewrite dt_VTime). cbv beta.
  rewrite time_of_day_column, <- map_map.
  set (df' := set_column "Time of Day" _ df).
  rewrite (bind_ok (setitem _ _) _ df tt df') by reflexivity. cbv beta.
  rewrite (bind_ok (getitem "Time of Day") _ df' _ df')
    by (apply getitem_ok; apply lookup_set_same). cbv beta.
  rewrite (bind_ok (lift (to_numeric _)) _ df'
             (map time_of_day (timestamps s)) df')
    by (unfold lift; now rewrite to_numeric_VNum). cbv beta.
  rewrite (bind_ok grouped_glucose _ df' (values s) df'); [reflexivity |].
  apply grouped_glucose_ok. unfold df'. rewrite lookup_set_other; [exact Hg | discriminate].
Qed.

(** ** groupby *)

Section GroupByFacts.
Context {K : Type}.
Variable cmp : K -> K -> comparison.
Hypothesis cmp_refl : forall a, cmp a a = Eq.
Hypothesis cmp_antisym : forall a b, cmp a b = CompOpp (cmp b a).
Hypothesis cmp_lt_trans :
  forall a b c, cmp a b = Lt -> cmp b c = Lt -> cmp a c = Lt.
Hypothesis cmp_eq_compat : forall a b c, cmp a b = Eq -> cmp a c = cmp b c.

Lemma insert_group_keys k v gs x :
  In x (insert_group cmp k v gs) ->
  fst x = k \/ exists y, In y gs /\ fst y = fst x.
Proof.
  induction gs as [| [k' vs] rest IH]; simpl.
  - intros [<- | []]. now left.
  - destruct (cmp k k') eqn:E; simpl.
    + intros [<- | H]; right.
      * exists (k', vs). auto.
      * exists x. auto.
    + intros [<- | [<- | H]]; [now left | right ..].
      * exists (k', vs). auto.
      * exists x. auto.
    + intros [<- | H].
      * right. exists (k', vs). auto.
      * destruct (IH H) as [-> | (y & Hy & Hf)]; [now left | right].
        exists y. auto.
Qed.

Lemma insert_group_sorted k v gs :
  StronglySorted (key_lt cmp) gs ->
  StronglySorted (key_lt cmp) (insert_group cmp k v gs).
Proof.
  induction 1 as [| [k' vs] rest Hs IH Hall]; simpl.
  - repeat constructor.
  - rewrite Forall_forall in Hall.
    destruct (cmp k k') eqn:E.
    + constructor; [assumption |].
      rewrite Forall_forall. intros y Hy. exact (Hall y Hy).
    + constructor; [now constructor; [| rewrite Forall_forall] |].
      constructor; [exact E |].
      rewrite Forall_forall. intros y Hy.
      unfold key_lt in *. simpl in *. eapply cmp_lt_trans; eauto.
    + constructor; [assumption |].
      rewrite Forall_forall. intros y Hy.
      destruct (insert_group_keys _ _ _ _ Hy) as [Hk | (z & Hz & Hf)].
      * unfold key_lt; simpl. rewrite Hk, cmp_antisym, E. reflexivity.
      * unfold key_lt; simpl. rewrite <- Hf. exact (Hall z Hz).
Qed.

Lemma insert_group_In k v gs k1 vs1 :
  StronglySorted (key_lt cmp) gs ->
  In (k1, vs1) (insert_group cmp k v gs) ->
  (In (k1, vs1) gs /\ cmp k k1 <> Eq) \/
  (exists vs, In (k1, vs) gs /\ cmp k k1 = Eq /\ vs1 = vs ++ [v]) \/
  (k1 = k /\ vs1 = [v] /\ forall y, In y gs -> cmp k (fst y) <> Eq).
Proof.
  induction 1 as [| [k' vs] rest Hs IH Hall]; simpl.
  - intros [H | []]. inversion H; subst. right; right. repeat split. tauto.
  - rewrite Forall_forall in Hall.
    assert (Hrest : cmp k k' = Lt \/ cmp k k' = Eq ->
                    forall y, In y rest -> cmp k (fst y) = Lt).
    { intros Hc y Hy. specialize (Hall y Hy). unfold key_lt in Hall.
      simpl in Hall. destruct Hc as [Hc | Hc].
      - eapply cmp_lt_trans; eauto.
      - now rewrite (cmp_eq_compat _ _ _ Hc). }
    destruct (cmp k k') eqn:E.
    + intros [H | H].
      * inversion H; subst. right; left. exists vs. auto.
      * left. split; [auto |].
        pose proof (Hrest (or_intror eq_refl) _ H) as HH. simpl in HH.
        rewrite HH. discriminate.
    + intros [H | [H | H]].
      * inversion H; subst. right; right. repeat split.
        intros y [<- | Hy]; simpl.
        -- rewrite E; discriminate.
        -- rewrite (Hrest (or_introl eq_refl) _ Hy). discriminate.
      * inversion H; subst. left. split; [auto |]. rewrite E. discriminate.
      * left. split; [auto |].
        pose proof (Hrest (or_introl eq_refl) _ H) as HH. simpl in HH.
        rewrite HH. discriminate.
    + intros [H | H].
      * inversion H; subst. left. split; [auto |]. rewrite E. discriminate.
      * destruct (IH H) as [[Hi Hc] | [(vs0 & Hi & Hc & Hv) | (Hk & Hv & Hn)]].
        -- left. auto.
        -- right; left. exists vs0. auto.
        -- right; right. repeat split; auto.
           intros y [<- | Hy]; simpl; [rewrite E; discriminate | auto].
Qed.

Lemma insert_group_keeps k v gs k1 vs :
  In (k1, vs) gs -> exists vs', In (k1, vs') (insert_group cmp k v gs).
Proof.
  induction gs as [| [k' vs0] rest IH]; simpl; [tauto |].
  intros [H | H].
  - inversion H; subst.
    destruct (cmp k k1); simpl; eauto.
  - destruct (cmp k k'); simpl.
    + eauto.
    + eauto.
    + destruct (IH H) as (vs' & Hv). eauto.
Qed.

Lemma insert_group_has k v gs :
  exists k1 vs1, In (k1, vs1) (insert_group cmp k v gs) /\ cmp k k1 = Eq.
Proof.
  induction gs as [| [k' vs0] rest IH]; simpl.
  - exists k, [v]. auto.
  - destruct (cmp k k') eqn:E; simpl.
    + exists k', (vs0 ++ [v]). auto.
    + exists k, [v]. auto.
    + destruct IH as (k1 & vs1 & Hi & Hc). exists k1, vs1. auto.
Qed.

Lemma group_of_snoc k rows kv :
  group_of cmp k (rows ++ [kv]) =
  group_of cmp k rows ++ (if same_key cmp k kv then [snd kv] else []).
Proof.
  unfold group_of. rewrite filter_app, map_app. simpl.
  now destruct (same_key cmp k kv).
Qed.

Lemma group_of_none k rows :
  (forall kv, In kv rows -> cmp (fst kv) k <> Eq) -> group_of cmp k rows = [].
Proof.
  intros H. unfold group_of.
  induction rows as [| kv rest IH]; simpl; [reflexivity |].
  unfold same_key at 1.
  destruct (cmp (fst kv) k) eqn:E.
  - exfalso. apply (H kv); simpl; auto.
  - apply IH. intros; apply H; simpl; auto.
  - apply IH. intros; apply H; simpl; auto.
Qed.

Lemma cmp_eq_sym a b : cmp a b = Eq -> cmp b a = Eq.
Proof. intros H. now rewrite cmp_antisym, H. Qed.

Lemma groups_ok_step rows gs k v :
  groups_ok cmp rows gs ->
  groups_ok cmp (rows ++ [(k, v)]) (insert_group cmp k v gs).
Proof.
  intros (Hs & Hc & Hcov). repeat split.
  - now apply insert_group_sorted.
  - destruct (insert_group_In _ _ _ _ _ Hs H)
      as [[Hi Hne] | [(vs0 & Hi & He & Hv) | (Hk & Hv & Hn)]].
    + rewrite group_of_snoc. unfold same_key; simpl.
      destruct (cmp k k0) eqn:E; [congruence | ..];
        rewrite app_nil_r; apply (Hc _ _ Hi).
    + rewrite group_of_snoc. unfold same_key; simpl. rewrite He.
      subst vs. f_equal. apply (Hc _ _ Hi).
    + subst. rewrite group_of_snoc. unfold same_key; simpl.
      rewrite cmp_refl. rewrite group_of_none; [reflexivity |].
      intros kv Hkv Heq.
      destruct (Hcov kv Hkv) as (k2 & vs2 & Hi2 & He2).
      apply (Hn (k2, vs2) Hi2). simpl.
      rewrite <- (cmp_eq_compat _ _ _ Heq). exact He2.
  - destruct (insert_group_In _ _ _ _ _ Hs H)
      as [[Hi Hne] | [(vs0 & Hi & He & Hv) | (Hk & Hv & Hn)]].
    + apply (Hc _ _ Hi).
    + subst vs. now destruct vs0.
    + subst vs. discriminate.
  - intros kv Hkv. apply in_app_or in Hkv. destruct Hkv as [Hkv | [<- | []]].
    + destruct (Hcov kv Hkv) as (k2 & vs2 & Hi2 & He2).
      destruct (insert_group_keeps k v _ _ _ Hi2) as (vs' & Hv).
      exists k2, vs'. auto.
    + simpl. apply insert_group_has.
Qed.

Lemma groupby_ok keys vals :
  groups_ok cmp (combine keys vals) (groupby cmp keys vals).
Proof.
  unfold groupby.
  induction (combine keys vals) as [| [k v] rows IH] using rev_ind.
  - simpl. repeat split; [constructor | contradiction | contradiction | ].
    intros kv [].
  - rewrite fold_left_app. simpl. now apply groups_ok_step.
Qed.
End GroupByFacts.

(** ** The two key orders *)

Lemma date_compare_eq a b : date_compare a b = Eq <-> a = b.
Proof.
  destruct a as [y m d], b as [y' m' d']. unfold date_compare; simpl.
  destruct (Nat.compare_spec y y'), (Nat.compare_spec m m'),
    (Nat.compare_spec d d'); split; intros Hc;
    try discriminate; try (inversion Hc; lia); subst; reflexivity.
Qed.

Lemma date_compare_lt a b :
  date_compare a b = Lt <->
  (dyear a < dyear b \/
   (dyear a = dyear b /\
    (dmonth a < dmonth b \/ (dmonth a = dmonth b /\ dday a < dday b))))%nat.
Proof.
  destruct a as [y m d], b as [y' m' d']. unfold date_compare; simpl.
  destruct (Nat.compare_spec y y'), (Nat.compare_spec m m'),
    (Nat.compare_spec d d'); split; intros Hc;
    try discriminate; try reflexivity; lia.
Qed.

Lemma date_compare_refl a : date_compare a a = Eq.
Proof. now apply date_compare_eq. Qed.

Lemma date_compare_antisym a b :
  date_compare a b = CompOpp (date_compare b a).
Proof.
  destruct a as [y m d], b as [y' m' d']. unfold date_compare; simpl.
  rewrite (Nat.compare_antisym y y'), (Nat.compare_antisym m m'),
    (Nat.compare_antisym d d').
  destruct (y ?= y')%nat, (m ?= m')%nat, (d ?= d')%nat; reflexivity.
Qed.

Lemma date_compare_lt_trans a b c :
  date_compare a b = Lt -> date_compare b c = Lt -> date_compare a c = Lt.
Proof. rewrite !date_compare_lt. lia. Qed.

Lemma date_compare_eq_compat a b c :
  date_compare a b = Eq -> date_compare a c = date_compare b c.
Proof. intros H. apply date_compare_eq in H. now subst. Qed.

Lemma Qcompare_refl' a : (a ?= a) = Eq.
Proof. apply Qeq_alt. reflexivity. Qed.

Lemma Qcompare_antisym' a b : (a ?= b) = CompOpp (b ?= a).
Proof. symmetry. apply Qcompare_antisym. Qed.

Lemma Qcompare_lt_trans a b c :
  (a ?= b) = Lt -> (b ?= c) = Lt -> (a ?= c) = Lt.
Proof. rewrite <- !Qlt_alt. apply Qlt_trans. Qed.

Lemma Qcompare_eq_compat a b c : (a ?= b) = Eq -> (a ?= c) = (b ?= c).
Proof. intros H. apply Qeq_alt in H. now rewrite H. Qed.

Lemma groupby_date_ok keys vals :
  groups_ok date_compare (combine keys vals) (groupby date_compare keys vals).
Proof.
  apply groupby_ok.
  - exact date_compare_refl.
  - exact date_compare_antisym.
  - exact date_compare_lt_trans.
  - exact date_compare_eq_compat.
Qed.

Lemma groupby_Q_ok keys vals :
  groups_ok Qcompare (combine keys vals) (groupby Qcompare keys vals).
Proof.
  apply groupby_ok.
  - exact Qcompare_refl'.
  - exact Qcompare_antisym'.
  - exact Qcompare_lt_trans.
  - exact Qcompare_eq_compat.
Qed.

(** ** Sorting *)

Lemma insert_sorted_perm x l : Permutation (insert_sorted x l) (x :: l).
Proof.
  induction l as [| y rest IH]; simpl; [reflexivity |].
  destruct (Qle_bool x y); [reflexivity |].
  rewrite IH. apply perm_swap.
Qed.

Lemma sort_perm xs : Permutation (sort xs) xs.
Proof.
  induction xs as [| x rest IH]; simpl; [reflexivity |].
  rewrite insert_sorted_perm. now constructor.
Qed.

Lemma sort_length xs : List.length (sort xs) = List.length xs.
Proof. apply Permutation_length, sort_perm. Qed.

Lemma Qle_bool_false x y : Qle_bool x y = false -> y < x.
Proof.
  intros H. apply Qnot_le_lt. intros Hle.
  apply Qle_bool_iff in Hle. congruence.
Qed.

Lemma insert_sorted_sorted x l :
  StronglySorted Qle l -> StronglySorted Qle (insert_sorted x l).
Proof.
  induction 1 as [| y rest Hs IH Hall]; simpl.
  - repeat constructor.
  - destruct (Qle_bool x y) eqn:E.
    + apply Qle_bool_iff in E. constructor; [now constructor |].
      constructor; [exact E |].
      eapply Forall_impl; [| exact Hall]. intros z Hz. eapply Qle_trans; eauto.
    + apply Qle_bool_false in E. constructor; [exact IH |].
      rewrite Forall_forall. intros z Hz.
      apply (Permutation_in _ (insert_sorted_perm x rest)) in Hz.
      destruct Hz as [<- | Hz].
      * now apply Qlt_le_weak.
      * rewrite Forall_forall in Hall. now apply Hall.
Qed.

Lemma sort_sorted xs : StronglySorted Qle (sort xs).
Proof.
  induction xs as [| x rest IH]; simpl; [constructor |].
  now apply insert_sorted_sorted.
Qed.

Lemma sorted_nth_le s i j :
  StronglySorted Qle s -> (i <= j)%nat -> (j < List.length s)%nat ->
  nth i s 0 <= nth j s 0.
Proof.
  intros Hs. revert i j. induction Hs as [| x rest Hs IH Hall]; intros i j Hij Hj.
  - simpl in Hj. lia.
  - destruct j as [| j].
    + assert (i = 0)%nat by lia. subst. apply Qle_refl.
    + destruct i as [| i]; simpl in *.
      * rewrite Forall_forall in Hall. apply Hall. apply nth_In. lia.
      * apply IH; lia.
Qed.

(** ** Floor, ceiling and interpolation *)

Lemma Qfloor_unique x z :
  inject_Z z <= x -> x < inject_Z (z + 1) -> Qfloor x = z.
Proof.
  intros H1 H2.
  pose proof (Qfloor_le x) as F1. pose proof (Qlt_floor x) as F2.
  assert (z < Qfloor x + 1)%Z by (rewrite Zlt_Qlt; eapply Qle_lt_trans; eauto).
  assert (Qfloor x < z + 1)%Z by (rewrite Zlt_Qlt; eapply Qle_lt_trans; eauto).
  lia.
Qed.

Lemma Qceiling_of_integer x : x == inject_Z (Qfloor x) -> Qceiling x = Qfloor x.
Proof. intros H. rewrite (Qceiling_comp _ _ H). apply Qceiling_Z. Qed.

Lemma Qceiling_of_fraction x :
  inject_Z (Qfloor x) < x -> Qceiling x = (Qfloor x + 1)%Z.
Proof.
  intros H.
  pose proof (Qle_ceiling x) as C1. pose proof (Qceiling_lt x) as C2.
  pose proof (Qlt_floor x) as F2.
  assert (Qfloor x < Qceiling x)%Z by (rewrite Zlt_Qlt; eapply Qlt_le_trans; eauto).
  assert (Qceiling x - 1 < Qfloor x + 1)%Z by (rewrite Zlt_Qlt; eapply Qlt_trans; eauto).
  lia.
Qed.

Lemma Qfloor_cases x : x == inject_Z (Qfloor x) \/ inject_Z (Qfloor x) < x.
Proof.
  destruct (Qle_lt_or_eq _ _ (Qfloor_le x)) as [H | H]; [now right | left].
  now symmetry.
Qed.

Lemma inject_Z_pred z : inject_Z (z - 1) == inject_Z z - 1.
Proof. unfold Z.sub. rewrite inject_Z_plus. reflexivity. Qed.

Lemma Qnat_pred n : Qnat n - 1 == inject_Z (Z.of_nat n - 1).
Proof.
  unfold Qnat, Z.sub. rewrite inject_Z_plus. reflexivity.
Qed.

Lemma Qfloor_nonneg x : 0 <= x -> (0 <= Qfloor x)%Z.
Proof. intros H. apply (Qfloor_resp_le 0 x H). Qed.

Lemma Qfloor_below x n : x <= Qnat n - 1 -> (Qfloor x <= Z.of_nat n - 1)%Z.
Proof.
  intros H. rewrite Qnat_pred in H.
  rewrite <- (Qfloor_Z (Z.of_nat n - 1)). now apply Qfloor_resp_le.
Qed.

Lemma Qceiling_below x n : x <= Qnat n - 1 -> (Qceiling x <= Z.of_nat n - 1)%Z.
Proof.
  intros H. rewrite Qnat_pred in H.
  rewrite <- (Qceiling_Z (Z.of_nat n - 1)). now apply Qceiling_resp_le.
Qed.

Lemma Qfloor_le_ceiling x : (Qfloor x <= Qceiling x)%Z.
Proof.
  destruct (Qfloor_cases x) as [H | H].
  - rewrite (Qceiling_of_integer _ H). lia.
  - rewrite (Qceiling_of_fraction _ H). lia.
Qed.

Lemma interp_comp s x y : x == y -> interp s x == interp s y.
Proof.
  intros H. unfold interp.
  rewrite (Qfloor_comp _ _ H), (Qceiling_comp _ _ H), H. reflexivity.
Qed.

Lemma interp_bounds s x :
  StronglySorted Qle s -> 0 <= x -> x <= Qnat (List.length s) - 1 ->
  nth (Z.to_nat (Qfloor x)) s 0 <= interp s x /\
  interp s x <= nth (Z.to_nat (Qceiling x)) s 0.
Proof.
  intros Hs H0 Hn.
  pose proof (Qfloor_nonneg _ H0) as F0.
  pose proof (Qceiling_below _ _ Hn) as C1.
  pose proof (Qfloor_le_ceiling x) as FC.
  assert (Hab : nth (Z.to_nat (Qfloor x)) s 0 <= nth (Z.to_nat (Qceiling x)) s 0)
    by (apply sorted_nth_le; [assumption | lia | lia]).
  pose proof (Qfloor_le x) as F1. pose proof (Qlt_floor x) as F2.
  rewrite inject_Z_plus in F2.
  unfold interp.
  set (a := nth (Z.to_nat (Qfloor x)) s 0) in *.
  set (b := nth (Z.to_nat (Qceiling x)) s 0) in *.
  set (f := inject_Z (Qfloor x)) in *.
  change (inject_Z 1) with 1 in F2.
  split; nra.
Qed.

Lemma interp_mono s x y :
  StronglySorted Qle s -> 0 <= x -> x <= y -> y <= Qnat (List.length s) - 1 ->
  interp s x <= interp s y.
Proof.
  intros Hs H0 Hxy Hn.
  assert (Hxn : x <= Qnat (List.length s) - 1) by (eapply Qle_trans; eauto).
  assert (Hy0 : 0 <= y) by (eapply Qle_trans; eauto).
  destruct (interp_bounds s x Hs H0 Hxn) as [_ Bx].
  destruct (interp_bounds s y Hs Hy0 Hn) as [By _].
  pose proof (Qfloor_resp_le _ _ Hxy) as Hij.
  pose proof (Qfloor_nonneg _ H0) as F0.
  pose proof (Qfloor_below _ _ Hn) as Fn.
  destruct (Z.eq_dec (Qfloor x) (Qfloor y)) as [E | NE].
  - destruct (Qfloor_cases x) as [Hx | Hx].
    + unfold interp at 1. rewrite E at 1.
      assert (Hz : x - inject_Z (Qfloor x) == 0) by (rewrite Hx at 1; ring).
      rewrite Hz. rewrite Qmult_0_l, Qplus_0_r. exact By.
    + assert (Hy : inject_Z (Qfloor y) < y)
        by (rewrite <- E; eapply Qlt_le_trans; eauto).
      pose proof (Qceiling_below _ _ Hn) as Cn.
      assert (Hab : nth (Z.to_nat (Qfloor y)) s 0 <=
                    nth (Z.to_nat (Qceiling y)) s 0).
      { apply sorted_nth_le; [assumption | |]; rewrite (Qceiling_of_fraction _ Hy) in *; lia. }
      unfold interp.
      rewrite (Qceiling_of_fraction _ Hx), (Qceiling_of_fraction _ Hy) in *.
      rewrite E in *.
      set (a := nth (Z.to_nat (Qfloor y)) s 0) in *.
      set (b := nth (Z.to_nat (Qfloor y + 1)) s 0) in *.
      set (f := inject_Z (Qfloor y)) in *.
      nra.
  - assert (Hc : (Qceiling x <= Qfloor y)%Z).
    { destruct (Qfloor_cases x) as [Hx | Hx].
      - rewrite (Qceiling_of_integer _ Hx). lia.
      - rewrite (Qceiling_of_fraction _ Hx). lia. }
    eapply Qle_trans; [exact Bx |].
    eapply Qle_trans; [| exact By].
    apply sorted_nth_le; [assumption | |].
    + pose proof (Qfloor_le_ceiling x). lia.
    + lia.
Qed.

(** ** numpy's percentile and pandas' median are the interpolation *)

Lemma lerp_eq a b t : lerp a b t == a + (b - a) * t.
Proof. unfold lerp. destruct (Qle_bool (1 # 2) t); ring. Qed.

Lemma py_nth_nonneg arr i :
  (0 <= i)%Z -> py_nth arr i = nth (Z.to_nat i) arr 0.
Proof.
  intros H. unfold py_nth.
  destruct (i <? 0)%Z eqn:E; [apply Z.ltb_lt in E; lia | reflexivity].
Qed.

Lemma py_nth_last arr :
  py_nth arr (-1) = nth (Z.to_nat (Z.of_nat (List.length arr) - 1)) arr 0.
Proof. reflexivity. Qed.

Lemma interp_at_integer s z : interp s (inject_Z z) == nth (Z.to_nat z) s 0.
Proof. unfold interp. rewrite Qfloor_Z, Qceiling_Z. ring. Qed.

Lemma Qnat_length_pos (xs : list Q) : xs <> [] -> 1 <= Qnat (List.length xs).
Proof.
  intros H. destruct xs; [congruence |].
  unfold Qnat. change 1 with (inject_Z 1). rewrite <- Zle_Qle. simpl. lia.
Qed.

Lemma Qdiv_100 p : p / 100 == p * (1 # 100).
Proof. reflexivity. Qed.

Lemma Qdiv_100_bounds p : 0 <= p -> p <= 100 -> 0 <= p / 100 /\ p / 100 <= 1.
Proof. intros. rewrite Qdiv_100. split; lra. Qed.

Lemma position_bounds p n :
  0 <= p -> p <= 100 -> 1 <= Qnat n ->
  0 <= position p n /\ position p n <= Qnat n - 1.
Proof.
  intros H0 H1 Hn. unfold position.
  destruct (Qdiv_100_bounds p H0 H1).
  set (q := p / 100) in *. split; nra.
Qed.

Lemma position_mono p p' n :
  p <= p' -> 1 <= Qnat n -> position p n <= position p' n.
Proof.
  intros H Hn. unfold position.
  assert (p / 100 <= p' / 100) by (rewrite !Qdiv_100; lra).
  set (q := p / 100) in *. set (q' := p' / 100) in *. nra.
Qed.

Lemma percentile_interp xs p :
  xs <> [] -> 0 <= p -> p <= 100 ->
  exists v, percentile xs p = Ok v /\
            v == interp (sort xs) (position p (List.length xs)).
Proof.
  intros Hne Hp0 Hp1.
  pose proof (Qnat_length_pos _ Hne) as Hn.
  destruct (position_bounds p _ Hp0 Hp1 Hn) as [Hv0 HvN].
  unfold percentile. cbv zeta.
  destruct (Qdiv_100_bounds p Hp0 Hp1) as [Hq0 Hq1].
  apply Qle_bool_iff in Hq0, Hq1.
  rewrite Hq0, Hq1. simpl negb. cbv iota.
  destruct xs as [| x0 rest] eqn:Exs; [congruence |]. rewrite <- Exs in *.
  assert (Hpos : (Qnat (List.length xs) - 1) * (p / 100) ==
                 position p (List.length xs)) by (unfold position; ring).
  set (vi := (Qnat (List.length xs) - 1) * (p / 100)) in *.
  assert (Hb : Qle_bool 0 vi = true) by (apply Qle_bool_iff; now rewrite Hpos).
  rewrite Hb. simpl negb. cbv iota.
  eexists. split; [reflexivity |].
  rewrite <- (interp_comp _ _ _ Hpos).
  destruct (Qle_bool (Qnat (List.length xs) - 1) vi) eqn:Ea.
  - apply Qle_bool_iff in Ea.
    assert (Hvi : vi == inject_Z (Z.of_nat (List.length xs) - 1)).
    { rewrite <- Qnat_pred. apply Qle_antisym; [now rewrite Hpos | exact Ea]. }
    rewrite lerp_eq, (interp_comp _ _ _ Hvi), interp_at_integer.
    rewrite py_nth_last, sort_length. ring.
  - apply Qle_bool_false in Ea.
    assert (F0 : (0 <= Qfloor vi)%Z) by (apply Qfloor_nonneg; now rewrite Hpos).
    rewrite lerp_eq, !py_nth_nonneg by lia.
    unfold interp.
    destruct (Qfloor_cases vi) as [Hi | Hf].
    + rewrite (Qceiling_of_integer _ Hi).
      assert (Hz : vi - inject_Z (Qfloor vi) == 0) by (rewrite Hi at 1; ring).
      rewrite Hz. ring.
    + rewrite (Qceiling_of_fraction _ Hf). ring.
Qed.

Lemma median_interp xs :
  xs <> [] ->
  exists m, median xs = Fin m /\
            m == interp (sort xs) (position 50 (List.length xs)).
Proof.
  intros Hne. unfold median.
  destruct xs as [| x0 rest] eqn:Exs; [congruence |]. rewrite <- Exs in *.
  assert (Hlen : (1 <= List.length xs)%nat) by (rewrite Exs; simpl; lia).
  clear Exs. cbv zeta.
  destruct (Nat.even (List.length xs)) eqn:Ev.
  - apply Nat.even_spec in Ev. destruct Ev as [m Hm].
    eexists. split; [reflexivity |].
    rewrite Hm in *.
    replace (2 * m / 2)%nat with m by (rewrite Nat.mul_comm, Nat.div_mul; lia).
    assert (Hpos : position 50 (2 * m) == inject_Z (Z.of_nat m) - (1 # 2)).
    { unfold position, Qnat. rewrite Nat2Z.inj_mul, inject_Z_mult.
      change (inject_Z (Z.of_nat 2)) with 2. field. }
    rewrite (interp_comp _ _ _ Hpos).
    assert (Hfl : Qfloor (inject_Z (Z.of_nat m) - (1 # 2)) = (Z.of_nat m - 1)%Z).
    { apply Qfloor_unique.
      - rewrite inject_Z_pred.
        generalize (inject_Z (Z.of_nat m)). intros M. lra.
      - replace (Z.of_nat m - 1 + 1)%Z with (Z.of_nat m) by lia.
        generalize (inject_Z (Z.of_nat m)). intros M. lra. }
    assert (Hce : Qceiling (inject_Z (Z.of_nat m) - (1 # 2)) = Z.of_nat m).
    { rewrite Qceiling_of_fraction; rewrite Hfl; [lia |].
      rewrite inject_Z_pred.
      generalize (inject_Z (Z.of_nat m)). intros M. lra. }
    unfold interp. rewrite Hfl, Hce.
    replace (Z.to_nat (Z.of_nat m - 1)) with (m - 1)%nat by lia.
    rewrite Nat2Z.id.
    rewrite inject_Z_pred. field.
  - assert (Hodd : Nat.odd (List.length xs) = true)
      by (rewrite <- Nat.negb_even, Ev; reflexivity).
    apply Nat.odd_spec in Hodd. destruct Hodd as [m Hm].
    eexists. split; [reflexivity |].
    rewrite Hm.
    replace ((2 * m + 1) / 2)%nat with m
      by (replace (2 * m + 1)%nat with (1 + m * 2)%nat by lia;
          rewrite Nat.div_add by lia; reflexivity).
    assert (Hpos : position 50 (2 * m + 1) == inject_Z (Z.of_nat m)).
    { unfold position, Qnat.
      rewrite Nat2Z.inj_add, Nat2Z.inj_mul, inject_Z_plus, inject_Z_mult.
      change (inject_Z (Z.of_nat 2)) with 2.
      change (inject_Z (Z.of_nat 1)) with 1. field. }
    rewrite (interp_comp _ _ _ Hpos), interp_at_integer, Nat2Z.id. reflexivity.
Qed.

(** ** Rows of the two grouped tables *)

Lemma map_result_Forall2 {A B} (f : A -> result B) (P : A -> B -> Prop) l :
  (forall a, In a l -> exists b, f a = Ok b /\ P a b) ->
  exists bs, map_result f l = Ok bs /\ Forall2 P l bs.
Proof.
  induction l as [| a rest IH]; intros H; simpl.
  - exists []. split; [reflexivity | constructor].
  - destruct (H a (or_introl eq_refl)) as (b & Hb & Pb).
    destruct IH as (bs & Hbs & Pbs); [intros; apply H; now right |].
    rewrite Hb, Hbs. exists (b :: bs). split; [reflexivity | now constructor].
Qed.

Lemma agp_row_ok g : snd g <> [] -> exists r, agp_row g = Ok r /\ agp_row_of g r.
Proof.
  intros Hne. unfold agp_row.
  destruct (percentile_interp (snd g) 5 Hne) as (p5 & E5 & H5); [lra | lra |].
  destruct (percentile_interp (snd g) 25 Hne) as (p25 & E25 & H25); [lra | lra |].
  destruct (percentile_interp (snd g) 75 Hne) as (p75 & E75 & H75); [lra | lra |].
  destruct (percentile_interp (snd g) 95 Hne) as (p95 & E95 & H95); [lra | lra |].
  rewrite E5, E25, E75, E95.
  eexists. split; [reflexivity |].
  unfold agp_row_of; simpl. repeat split; try assumption.
  apply median_interp, Hne.
Qed.

Lemma Forall2_In_r {A B} (P : A -> B -> Prop) l l' b :
  Forall2 P l l' -> In b l' -> exists a, In a l /\ P a b.
Proof.
  induction 1 as [| a0 b0 l l' H0 H IH]; simpl; [tauto |].
  intros [<- | Hb]; [eauto |].
  destruct (IH Hb) as (a & Ha & Pa). eauto.
Qed.

Lemma Forall2_In_l {A B} (P : A -> B -> Prop) l l' a :
  Forall2 P l l' -> In a l -> exists b, In b l' /\ P a b.
Proof.
  induction 1 as [| a0 b0 l l' H0 H IH]; simpl; [tauto |].
  intros [<- | Ha]; [eauto |].
  destruct (IH Ha) as (b & Hb & Pb). eauto.
Qed.

Lemma Forall2_sorted {A B} (P : A -> B -> Prop)
      (RA : A -> A -> Prop) (RB : B -> B -> Prop) l l' :
  (forall a a' b b', P a b -> P a' b' -> RA a a' -> RB b b') ->
  Forall2 P l l' -> StronglySorted RA l -> StronglySorted RB l'.
Proof.
  intros HR H. induction H as [| a b l l' Hab H IH]; intros Hs.
  - constructor.
  - inversion Hs as [| ? ? Hs' Hall]; subst. constructor; [auto |].
    rewrite Forall_forall in *. intros b' Hb'.
    destruct (Forall2_In_r _ _ _ _ H Hb') as (a' & Ha' & Pa'). eauto.
Qed.

Lemma StronglySorted_map {A B} (f : A -> B) (R : B -> B -> Prop) l :
  StronglySorted (fun a a' => R (f a) (f a')) l -> StronglySorted R (map f l).
Proof.
  induction 1 as [| a l Hs IH Hall]; simpl; constructor; auto.
  rewrite Forall_forall in *. intros b Hb.
  apply in_map_iff in Hb. destruct Hb as (a' & <- & Ha'). auto.
Qed.

Lemma fold_left_qmin rest x :
  let m := fold_left qmin rest x in
  In m (x :: rest) /\ forall y, In y (x :: rest) -> m <= y.
Proof.
  revert x. induction rest as [| z rest IH]; intros x; simpl.
  - split; [auto |]. intros y [<- | []]. apply Qle_refl.
  - destruct (IH (qmin x z)) as [Hin Hle]. simpl in Hin.
    assert (Hq : (qmin x z = x \/ qmin x z = z) /\ qmin x z <= x /\ qmin x z <= z).
    { unfold qmin. destruct (Qle_bool x z) eqn:E.
      - apply Qle_bool_iff in E. repeat split; auto. apply Qle_refl.
      - apply Qle_bool_false in E. repeat split; auto using Qle_refl, Qlt_le_weak. }
    destruct Hq as (Hcase & Hx & Hz). split.
    + destruct Hin as [Hin | Hin]; [| auto].
      rewrite <- Hin. destruct Hcase as [-> | ->]; auto.
    + intros y [<- | [<- | Hy]].
      * eapply Qle_trans; [apply Hle; simpl; auto | exact Hx].
      * eapply Qle_trans; [apply Hle; simpl; auto | exact Hz].
      * apply Hle. simpl. auto.
Qed.

Lemma fold_left_qmax rest x :
  let m := fold_left qmax rest x in
  In m (x :: rest) /\ forall y, In y (x :: rest) -> y <= m.
Proof.
  revert x. induction rest as [| z rest IH]; intros x; simpl.
  - split; [auto |]. intros y [<- | []]. apply Qle_refl.
  - destruct (IH (qmax x z)) as [Hin Hle]. simpl in Hin.
    assert (Hq : (qmax x z = x \/ qmax x z = z) /\ x <= qmax x z /\ z <= qmax x z).
    { unfold qmax. destruct (Qle_bool x z) eqn:E.
      - apply Qle_bool_iff in E. repeat split; auto. apply Qle_refl.
      - apply Qle_bool_false in E. repeat split; auto using Qle_refl, Qlt_le_weak. }
    destruct Hq as (Hcase & Hx & Hz). split.
    + destruct Hin as [Hin | Hin]; [| auto].
      rewrite <- Hin. destruct Hcase as [-> | ->]; auto.
    + intros y [<- | [<- | Hy]].
      * eapply Qle_trans; [exact Hx | apply Hle; simpl; auto].
      * eapply Qle_trans; [exact Hz | apply Hle; simpl; auto].
      * apply Hle. simpl. auto.
Qed.

Lemma series_min_is_min xs : xs <> [] -> is_min xs (series_min xs).
Proof.
  destruct xs as [| x rest]; [congruence | intros _].
  destruct (fold_left_qmin rest x) as [Hin Hle].
  exists (fold_left qmin rest x). auto.
Qed.

Lemma series_max_is_max xs : xs <> [] -> is_max xs (series_max xs).
Proof.
  destruct xs as [| x rest]; [congruence | intros _].
  destruct (fold_left_qmax rest x) as [Hin Hle].
  exists (fold_left qmax rest x). auto.
Qed.

Lemma mean_nonempty xs :
  xs <> [] -> mean xs = Fin (Qsum xs / Qnat (List.length xs)).
Proof. destruct xs; [congruence | reflexivity]. Qed.

(** The rows of a series, as [groupby] sees them. *)
Lemma combine_series {K} (key : datetime -> K) (s : Series) :
  combine (map key (timestamps s)) (values s) =
  map (fun r => (key (timestamp r), glucose_mg_dl r)) s.
Proof.
  unfold timestamps, values. rewrite map_map.
  induction s; simpl; congruence.
Qed.

Lemma group_of_series {K} (cmp : K -> K -> comparison)
      (key : datetime -> K) (k : K) (s : Series) :
  group_of cmp k (map (fun r => (key (timestamp r), glucose_mg_dl r)) s) =
  values (filter (fun r => match cmp (key (timestamp r)) k with
                           | Eq => true | _ => false end) s).
Proof.
  unfold group_of, values.
  induction s as [| r rest IH]; simpl; [reflexivity |].
  unfold same_key at 1. simpl.
  destruct (cmp (key (timestamp r)) k); simpl; congruence.
Qed.

Lemma date_eqb_eq a b : date_eqb a b = true <-> a = b.
Proof.
  destruct a as [y m d], b as [y' m' d']. unfold date_eqb; simpl.
  rewrite !andb_true_iff, !Nat.eqb_eq. split.
  - intros [[-> ->] ->]. reflexivity.
  - intros H. inversion H. auto.
Qed.

Lemma date_same_key a b :
  match date_compare a b with Eq => true | _ => false end = date_eqb a b.
Proof.
  destruct (date_eqb a b) eqn:E.
  - apply date_eqb_eq in E. subst. now rewrite date_compare_refl.
  - destruct (date_compare a b) eqn:C; auto.
    apply date_compare_eq in C. apply date_eqb_eq in C. congruence.
Qed.

Lemma Q_same_key a b :
  match a ?= b with Eq => true | _ => false end = Qeq_bool a b.
Proof.
  destruct (Qeq_bool a b) eqn:E.
  - apply Qeq_bool_iff in E. apply Qeq_alt in E. now rewrite E.
  - destruct (a ?= b) eqn:C; auto.
    apply Qeq_alt in C. apply Qeq_bool_iff in C. congruence.
Qed.

Lemma group_of_dates d s :
  group_of date_compare d
           (map (fun r => (date_of (timestamp r), glucose_mg_dl r)) s) =
  readings_on d s.
Proof.
  rewrite group_of_series. unfold readings_on. f_equal.
  apply filter_ext. intros r. apply date_same_key.
Qed.

Lemma group_of_times t s :
  group_of Qcompare t
           (map (fun r => (time_of_day (timestamp r), glucose_mg_dl r)) s) =
  readings_at t s.
Proof.
  rewrite group_of_series. unfold readings_at. f_equal.
  apply filter_ext. intros r. apply Q_same_key.
Qed.

Lemma StronglySorted_NoDup {A} (R : A -> A -> Prop) l :
  (forall a, ~ R a a) -> StronglySorted R l -> NoDup l.
Proof.
  intros Hirr. induction 1 as [| a l Hs IH Hall]; constructor; auto.
  intros Hin. rewrite Forall_forall in Hall. exact (Hirr a (Hall a Hin)).
Qed.

Lemma values_filter_nonempty (f : Reading -> bool) s :
  values (filter f s) <> [] -> exists r, In r s /\ f r = true.
Proof.
  induction s as [| r rest IH]; simpl; [congruence |].
  destruct (f r) eqn:E.
  - intros _. exists r. auto.
  - intros H. destruct (IH H) as (r' & Hr' & Hf). eauto.
Qed.

Lemma groups_of_dates s :
  groups_ok date_compare
    (map (fun r => (date_of (timestamp r), glucose_mg_dl r)) s)
    (groupby date_compare (map date_of (timestamps s)) (values s)).
Proof. rewrite <- combine_series. apply groupby_date_ok. Qed.

Lemma groups_of_times s :
  groups_ok Qcompare
    (map (fun r => (time_of_day (timestamp r), glucose_mg_dl r)) s)
    (groupby Qcompare (map time_of_day (timestamps s)) (values s)).
Proof. rewrite <- combine_series. apply groupby_Q_ok. Qed.

Lemma compute_agp_rows df s :
  holds df s ->
  exists rows,
    compute_agp df =
    (Ok rows,
     set_column "Time of Day" (map VNum (map time_of_day (timestamps s))) df) /\
    Forall2 agp_row_of
            (groupby Qcompare (map time_of_day (timestamps s)) (values s)) rows.
Proof.
  intros H. rewrite (compute_agp_holds _ _ H).
  destruct (groups_of_times s) as (_ & Hc & _).
  destruct (map_result_Forall2 agp_row agp_row_of
              (groupby Qcompare (map time_of_day (timestamps s)) (values s)))
    as (rows & Hrows & Hall).
  - intros [k vs] Hin. apply agp_row_ok. simpl. apply (Hc _ _ Hin).
  - exists rows. rewrite Hrows. auto.
Qed.

(** ** The time-of-day curve *)

(** C4.  On a frame that holds a series, [compute_agp] returns a table.  It
    writes the coordinate [hour + minute / 60] of every reading into the
    column [Time of Day]; the rows come in strictly ascending order of the
    coordinate; every reading has the row of its coordinate; and a row holds,
    for the readings that have exactly its coordinate, the median and the
    5th, 25th, 75th and 95th percentiles, each the linear interpolation
    between order statistics at position [p / 100 * (n - 1)] of the sorted
    group. *)
Theorem agp_curve_by_time_of_day df s :
  holds df s ->
  exists rows,
    fst (compute_agp df) = Ok rows /\
    lookup "Time of Day" (snd (compute_agp df)) =
      Some (map (fun r => VNum (Qnat (hour (timestamp r)) +
                                Qnat (minute (timestamp r)) / 60)) s) /\
    StronglySorted Qlt (map TimeOfDay rows) /\
    (forall r, In r s ->
       exists row, In row rows /\ TimeOfDay row == time_of_day (timestamp r)) /\
    (forall row, In row rows ->
       let g := readings_at (TimeOfDay row) s in
       g <> [] /\
       (exists m, Median row = Fin m /\ is_percentile 50 g m) /\
       is_percentile 5 g (Percentile5 row) /\
       is_percentile 25 g (Percentile25 row) /\
       is_percentile 75 g (Percentile75 row) /\
       is_percentile 95 g (Percentile95 row)).
Proof.
  intros H. destruct (compute_agp_rows _ _ H) as (rows & E & Hall).
  destruct (groups_of_times s) as (Hs & Hc & Hcov).
  exists rows. rewrite E. simpl. repeat split.
  - rewrite lookup_set_same. unfold timestamps. now rewrite !map_map.
  - apply StronglySorted_map.
    refine (Forall2_sorted _ _ _ _ _ _ Hall Hs).
    intros a a' b b' (Ha & _) (Ha' & _) Hlt.
    rewrite Ha, Ha'. apply Qlt_alt. exact Hlt.
  - intros r Hr.
    destruct (Hcov (time_of_day (timestamp r), glucose_mg_dl r))
      as (k & vs & Hin & Heq).
    { apply in_map_iff. eauto. }
    destruct (Forall2_In_l _ _ _ _ Hall Hin) as (row & Hrow & Hk & _).
    exists row. split; [assumption |]. rewrite Hk. simpl.
    symmetry. apply Qeq_alt. exact Heq.
  - destruct (Forall2_In_r _ _ _ _ Hall H0) as ([k vs] & Hin & Hk & _).
    simpl in Hk. rewrite Hk, <- group_of_times.
    destruct (Hc _ _ Hin) as [<- Hne]. exact Hne.
  - destruct (Forall2_In_r _ _ _ _ Hall H0)
      as ([k vs] & Hin & Hk & (m & Hm & Em) & _).
    simpl in *. rewrite Hk, <- group_of_times.
    destruct (Hc _ _ Hin) as [<- Hne].
    exists m. split; [assumption |].
    exists (sort vs). auto using sort_perm, sort_sorted.
  - destruct (Forall2_In_r _ _ _ _ Hall H0)
      as ([k vs] & Hin & Hk & _ & E5 & _).
    simpl in *. rewrite Hk, <- group_of_times.
    destruct (Hc _ _ Hin) as [<- Hne].
    exists (sort vs). auto using sort_perm, sort_sorted.
  - destruct (Forall2_In_r _ _ _ _ Hall H0)
      as ([k vs] & Hin & Hk & _ & _ & E25 & _).
    simpl in *. rewrite Hk, <- group_of_times.
    destruct (Hc _ _ Hin) as [<- Hne].
    exists (sort vs). auto using sort_perm, sort_sorted.
  - destruct (Forall2_In_r _ _ _ _ Hall H0)
      as ([k vs] & Hin & Hk & _ & _ & _ & E75 & _).
    simpl in *. rewrite Hk, <- group_of_times.
    destruct (Hc _ _ Hin) as [<- Hne].
    exists (sort vs). auto using sort_perm, sort_sorted.
  - destruct (Forall2_In_r _ _ _ _ Hall H0)
      as ([k vs] & Hin & Hk & _ & _ & _ & _ & E95).
    simpl in *. rewrite Hk, <- group_of_times.
    destruct (Hc _ _ Hin) as [<- Hne].
    exists (sort vs). auto using sort_perm, sort_sorted.
Qed.

Lemma agp_curve_by_time_of_day_witness :
  holds (frame_of example_series) example_series /\
  exists rows, fst (compute_agp (frame_of example_series)) = Ok rows /\
               StronglySorted Qlt (map TimeOfDay rows).
Proof.
  assert (H : holds (frame_of example_series) example_series)
    by (unfold holds; repeat split).
  split; [exact H |].
  destruct (agp_curve_by_time_of_day _ _ H) as (rows & E & _ & Hs & _).
  exists rows. split; assumption.
Defined.

Lemma interp_sort_mono xs p p' :
  xs <> [] -> 0 <= p -> p <= p' -> p' <= 100 ->
  interp (sort xs) (position p (List.length xs)) <=
  interp (sort xs) (position p' (List.length xs)).
Proof.
  intros Hne H0 Hpp H1.
  pose proof (Qnat_length_pos _ Hne) as Hn.
  apply interp_mono.
  - apply sort_sorted.
  - apply position_bounds; [assumption | lra | assumption].
  - now apply position_mono.
  - rewrite sort_length. apply position_bounds; [lra | assumption | assumption].
Qed.



(** ** Daily profiles *)

(** C6.  On a frame that holds a series, [compute_daily_profiles] returns a
    table.  It writes the date component of every timestamp into the column
    [Date]; the rows come in strictly ascending date order, so no date has
    two rows; every reading has the row of its date; and every row is the
    date of some reading and holds the minimum, the maximum and the mean of
    the glucose values of the readings of that date. *)
Theorem daily_profiles_by_date df s :
  holds df s ->
  exists rows,
    fst (compute_daily_profiles df) = Ok rows /\
    lookup "Date" (snd (compute_daily_profiles df)) =
      Some (map (fun r => VDate (date_of (timestamp r))) s) /\
    StronglySorted (fun a b => date_compare a b = Lt) (map Date rows) /\
    NoDup (map Date rows) /\
    (forall r, In r s ->
       exists row, In row rows /\ Date row = date_of (timestamp r)) /\
    (forall row, In row rows ->
       let g := readings_on (Date row) s in
       (exists r, In r s /\ date_of (timestamp r) = Date row) /\
       is_min g (Min row) /\
       is_max g (Max row) /\
       Mean row = Fin (Qsum g / Qnat (List.length g))).
Proof.
  intros H. rewrite (compute_daily_profiles_holds _ _ H).
  destruct (groups_of_dates s) as (Hs & Hc & Hcov).
  set (gs := groupby date_compare (map date_of (timestamps s)) (values s)) in *.
  assert (Hsorted : StronglySorted (fun a b => date_compare a b = Lt)
                                   (map Date (map daily_row gs))).
  { rewrite map_map. apply StronglySorted_map. exact Hs. }
  assert (Hrow : forall row, In row (map daily_row gs) ->
                 exists vs, In (Date row, vs) gs /\ row = daily_row (Date row, vs)).
  { intros row Hrow. apply in_map_iff in Hrow.
    destruct Hrow as ([k vs] & <- & Hin). exists vs. auto. }
  exists (map daily_row gs). simpl. repeat split.
  - rewrite lookup_set_same. unfold timestamps. now rewrite !map_map.
  - exact Hsorted.
  - apply (StronglySorted_NoDup (fun a b => date_compare a b = Lt));
      [| exact Hsorted].
    intros a Ha. rewrite date_compare_refl in Ha. discriminate.
  - intros r Hr.
    destruct (Hcov (date_of (timestamp r), glucose_mg_dl r))
      as (k & vs & Hin & Heq).
    { apply in_map_iff. eauto. }
    exists (daily_row (k, vs)). split; [now apply in_map |].
    simpl in *. symmetry. now apply date_compare_eq.
  - destruct (Hrow _ H0) as (vs & Hin & _).
    destruct (Hc _ _ Hin) as [Hvs Hne]. rewrite group_of_dates in Hvs.
    subst vs. destruct (values_filter_nonempty _ _ Hne) as (r & Hr & Hd).
    exists r. split; [assumption |]. now apply date_eqb_eq.
  - destruct (Hrow _ H0) as (vs & Hin & ->).
    destruct (Hc _ _ Hin) as [Hvs Hne]. rewrite group_of_dates in Hvs.
    simpl. rewrite <- Hvs. now apply series_min_is_min.
  - destruct (Hrow _ H0) as (vs & Hin & ->).
    destruct (Hc _ _ Hin) as [Hvs Hne]. rewrite group_of_dates in Hvs.
    simpl. rewrite <- Hvs. now apply series_max_is_max.
  - destruct (Hrow _ H0) as (vs & Hin & ->).
    destruct (Hc _ _ Hin) as [Hvs Hne]. rewrite group_of_dates in Hvs.
    simpl. rewrite <- Hvs. now apply mean_nonempty.
Qed.

Lemma daily_profiles_by_date_witness :
  holds (frame_of example_series) example_series /\
  exists rows,
    fst (compute_daily_profiles (frame_of example_series)) = Ok rows /\
    NoDup (map Date rows).
Proof.
  assert (H : holds (frame_of example_series) example_series)
    by (unfold holds; repeat split).
  split; [exact H |].
  destruct (daily_profiles_by_date _ _ H) as (rows & E & _ & _ & Hn & _).
  exists rows. split; assumption.
Defined.

(** ** Time in range *)

Lemma count_true_map (f : Q -> bool) xs : count_true (map f xs) = count f xs.
Proof.
  unfold count_true, count.
  induction xs as [| x rest IH]; simpl; [reflexivity |].
  destruct (f x); simpl; congruence.
Qed.

(** What the program computes for a range with two finite ends: the share of
    the readings in the closed interval. *)
Lemma pct_closed lo hi xs :
  xs <> [] ->
  pct (Fin lo, Fin hi) xs =
  Fin (percentage (count (in_closed lo hi) xs) (List.length xs)).
Proof.
  intros Hne. unfold pct, between, percentage. simpl fst. simpl snd.
  change (fun x => fle (Fin lo) (Fin x) && fle (Fin x) (Fin hi))
    with (in_closed lo hi).
  rewrite <- count_true_map, <- (length_map (in_closed lo hi) xs).
  destruct xs; [congruence | reflexivity].
Qed.

(** And for a range without upper end. *)
Lemma pct_from lo xs :
  xs <> [] ->
  pct (Fin lo, PInf) xs =
  Fin (percentage (count (fun x => Qle_bool lo x && true) xs) (List.length xs)).
Proof.
  intros Hne. unfold pct, between, percentage. simpl fst. simpl snd.
  change (fun x => fle (Fin lo) (Fin x) && fle (Fin x) PInf)
    with (fun x => Qle_bool lo x && true).
  rewrite <- count_true_map,
    <- (length_map (fun x => Qle_bool lo x && true) xs).
  destruct xs; [congruence | reflexivity].
Qed.

Lemma Qle_bool_inject_Z a b : Qle_bool (inject_Z a) (inject_Z b) = (a <=? b)%Z.
Proof. unfold Qle_bool; simpl. now rewrite !Z.mul_1_r. Qed.

(** On whole numbers the closed interval [[lo, hi]] of the program is the
    half-open interval [[lo, hi + 1)]. *)
Lemma closed_is_half_open_on_integers lo hi z :
  in_closed (inject_Z lo) (inject_Z hi) (inject_Z z) =
  in_half_open (inject_Z lo) (inject_Z (hi + 1)) (inject_Z z).
Proof.
  unfold in_closed, in_half_open. rewrite !Qle_bool_inject_Z. f_equal.
  destruct (z <=? hi)%Z eqn:E1, (hi + 1 <=? z)%Z eqn:E2; simpl; try reflexivity;
    rewrite ?Z.leb_le, ?Z.leb_gt in *; lia.
Qed.

Lemma count_ext_in (f g : Q -> bool) xs :
  (forall x, In x xs -> f x = g x) -> count f xs = count g xs.
Proof. intros H. unfold count. f_equal. now apply filter_ext_in. Qed.

(** So on a series of whole-number readings the four bounded buckets are the
    intervals [[0, 54)], [[54, 70)], [[70, 181)] and [[181, 251)]. *)
Lemma bounded_buckets_on_integers lo hi zs :
  zs <> [] ->
  pct (Fin (inject_Z lo), Fin (inject_Z hi)) (map inject_Z zs) =
  Fin (percentage
         (count (in_half_open (inject_Z lo) (inject_Z (hi + 1)))
                (map inject_Z zs))
         (List.length zs)).
Proof.
  intros Hne. rewrite pct_closed by (destruct zs; [congruence | discriminate]).
  rewrite length_map. f_equal. f_equal.
  apply count_ext_in. intros x Hx. apply in_map_iff in Hx.
  destruct Hx as (z & <- & _). apply closed_is_half_open_on_integers.
Qed.

(** C2.  At the single reading 53.5 mg/dL, which the interval [[0, 54)]
    contains, the summary is returned and reports 0 percent in each of the
    five buckets: the program counts a reading as very low only up to 53. *)
Theorem very_low_bucket_misses_53_5 :
  in_half_open 0 54 (107 # 2) = true /\
  exists a,
    fst (compute_agp_summary (frame_of gap_series)) = Ok a /\
    feq (TimeVeryLow a) (Fin 0) /\ feq (TimeBelow a) (Fin 0) /\
    feq (TimeInTarget a) (Fin 0) /\ feq (TimeAbove a) (Fin 0) /\
    feq (TimeVeryHigh a) (Fin 0).
Proof.
  split; [reflexivity |].
  rewrite (compute_agp_summary_holds _ _ (holds_frame_of gap_series)).
  eexists. split; [reflexivity |].
  simpl. repeat split; vm_compute; reflexivity.
Qed.

(** C3.  At the same single reading, 53.5 mg/dL, the five bucket percentages
    add up to 0 while 100 percent of the readings are at least 0. *)
Theorem bucket_sum_misses_53_5 :
  exists a vl l t h vh,
    fst (compute_agp_summary (frame_of gap_series)) = Ok a /\
    TimeVeryLow a = Fin vl /\ TimeBelow a = Fin l /\ TimeInTarget a = Fin t /\
    TimeAbove a = Fin h /\ TimeVeryHigh a = Fin vh /\
    vl + l + t + h + vh == 0 /\
    percentage (count (Qle_bool 0) (values gap_series))
               (List.length gap_series) == 100.
Proof.
  rewrite (compute_agp_summary_holds _ _ (holds_frame_of gap_series)).
  do 6 eexists. simpl.
  repeat split; vm_compute; reflexivity.
Qed.

(** ** The empty series *)

(** C1, as the program behaves.  On a frame that holds the series without
    readings no aggregation raises: the summary is returned with
    [TotalReadings = 0] and NaN for every percentage, for the mean and for
    the coefficient of variation, and the two grouped tables are returned
    without rows. *)
Theorem empty_series_summary_is_nan df :
  holds df [] ->
  compute_agp_summary df =
    (Ok (mkSummary 0 NaN NaN NaN NaN NaN NaN NaN), df) /\
  fst (compute_daily_profiles df) = Ok [] /\
  fst (compute_agp df) = Ok [].
Proof.
  intros H. repeat split.
  - now rewrite (compute_agp_summary_holds _ _ H).
  - now rewrite (compute_daily_profiles_holds _ _ H).
  - now rewrite (compute_agp_holds _ _ H).
Qed.

Lemma empty_series_summary_is_nan_witness :
  holds empty_frame [] /\
  compute_agp_summary empty_frame =
    (Ok (mkSummary 0 NaN NaN NaN NaN NaN NaN NaN), empty_frame).
Proof.
  assert (H : holds empty_frame []) by (unfold holds; repeat split).
  split; [exact H |].
  exact (proj1 (empty_series_summary_is_nan empty_frame H)).
Defined.

(** C1, as stated, fails on the frame without rows: no aggregation raises,
    and the summary that is returned has the mean NaN. *)
Lemma empty_series_raises_nothing :
  (forall e, fst (compute_agp_summary empty_frame) <> Raise e) /\
  (forall e, fst (compute_daily_profiles empty_frame) <> Raise e) /\
  (forall e, fst (compute_agp empty_frame) <> Raise e) /\
  exists a, fst (compute_agp_summary empty_frame) = Ok a /\
            TotalReadings a = 0%nat /\ MeanGlucose a = NaN.
Proof.
  repeat split; try (intros e; discriminate).
  eexists. repeat split.
Qed.

(** ** One reading *)

(** C9.  On a frame that holds a series of exactly one reading the summary
    is returned, nothing raises; the standard deviation of the single value
    is NaN and so is the coefficient of variation, while the mean is the
    value of the reading and the five percentages are finite. *)
Theorem single_reading_cv_is_nan df r :
  holds df [r] ->
  exists a,
    compute_agp_summary df = (Ok a, df) /\
    TotalReadings a = 1%nat /\
    std [glucose_mg_dl r] = NaN /\
    CV a = NaN /\
    feq (MeanGlucose a) (Fin (glucose_mg_dl r)) /\
    finite (TimeInTarget a) /\ finite (TimeBelow a) /\
    finite (TimeVeryLow a) /\ finite (TimeAbove a) /\
    finite (TimeVeryHigh a).
Proof.
  intros H. rewrite (compute_agp_summary_holds _ _ H).
  eexists. split; [reflexivity |]. simpl.
  repeat split; try (eexists; reflexivity).
  unfold Qnat. simpl. field.
Qed.

Lemma single_reading_cv_is_nan_witness :
  holds (frame_of gap_series) gap_series /\
  exists a, compute_agp_summary (frame_of gap_series) =
            (Ok a, frame_of gap_series) /\ CV a = NaN.
Proof.
  assert (H : holds (frame_of gap_series) gap_series)
    by (unfold holds; repeat split).
  split; [exact H |].
  destruct (single_reading_cv_is_nan _ _ H) as (a & E & _ & _ & Hcv & _).
  exists a. split; assumption.
Defined.

(** ** What the three computations do to the frame *)

(** C10.  [compute_agp_summary] hands back the frame as it received it,
    whatever the frame and whether it raises or not.  The two grouped
    computations write into the frame they were given: as soon as the
    [Timestamp] column holds datetimes, [compute_daily_profiles] sets the
    column [Date] and [compute_agp] the column [Time of Day], and the frame
    then has a column of that name. *)
Theorem summary_leaves_frame_unchanged :
  (forall df, snd (compute_agp_summary df) = df) /\
  (forall df,
     match lookup "Timestamp" df with
     | Some c =>
         match dt c with
         | Ok ts =>
             let date_col := map (fun t => VDate (date_of t)) ts in
             let time_col := map (fun t => VNum (time_of_day t)) ts in
             snd (compute_daily_profiles df) = set_column "Date" date_col df /\
             In "Date"%string (column_names (snd (compute_daily_profiles df))) /\
             snd (compute_agp df) = set_column "Time of Day" time_col df /\
             In "Time of Day"%string (column_names (snd (compute_agp df)))
         | Raise _ =>
             snd (compute_daily_profiles df) = df /\ snd (compute_agp df) = df
         end
     | None =>
         snd (compute_daily_profiles df) = df /\ snd (compute_agp df) = df
     end) /\
  (forall s,
     column_names (snd (compute_agp_summary (frame_of s))) =
       ["Timestamp"; "Glucose"]%string /\
     column_names (snd (compute_daily_profiles (frame_of s))) =
       ["Timestamp"; "Glucose"; "Date"]%string /\
     column_names (snd (compute_agp (frame_of s))) =
       ["Timestamp"; "Glucose"; "Time of Day"]%string).
Proof.
  split; [exact read_only_compute_agp_summary |]. split.
  - intros df. rewrite daily_frame_effect, agp_frame_effect.
    destruct (lookup "Timestamp" df) as [c |]; [| auto].
    destruct (dt c) as [ts | e]; [| auto].
    cbv zeta. repeat split; apply set_column_names.
  - intros s. rewrite read_only_compute_agp_summary.
    rewrite (compute_daily_profiles_holds _ _ (holds_frame_of s)).
    rewrite (compute_agp_holds _ _ (holds_frame_of s)).
    repeat split.
Qed.

(** ** Scaling the values *)

Lemma Qsum_scale k xs : Qsum (map (Qmult k) xs) == k * Qsum xs.
Proof.
  induction xs as [| x rest IH]; simpl; [ring |]. rewrite IH. ring.
Qed.

Lemma Qsum_map_ext (f g : Q -> Q) xs :
  (forall x, f x == g x) -> Qsum (map f xs) == Qsum (map g xs).
Proof.
  intros H. induction xs as [| x rest IH]; simpl; [reflexivity |].
  now rewrite IH, H.
Qed.

Lemma Qsum_squares_nonneg a xs :
  0 <= Qsum (map (fun x => (a - x) * (a - x)) xs).
Proof.
  induction xs as [| x rest IH]; simpl; [apply Qle_refl |].
  assert (0 <= (a - x) * (a - x))
    by (generalize (a - x); intros y; destruct (Qlt_le_dec y 0); nra).
  lra.
Qed.

Lemma Qnat_pos n : (0 < n)%nat -> 0 < Qnat n.
Proof.
  intros H. unfold Qnat. change 0 with (inject_Z 0). rewrite <- Zlt_Qlt. lia.
Qed.

(** The variance of at least two values is finite and not negative. *)
Lemma var_finite xs :
  (2 <= List.length xs)%nat ->
  exists v, var xs = Fin v /\ 0 <= v /\
    v == Qsum (map (fun x => (Qsum xs / Qnat (List.length xs) - x) *
                             (Qsum xs / Qnat (List.length xs) - x)) xs)
         / Qnat (List.length xs - 1).
Proof.
  intros Hn. unfold var. cbv zeta.
  destruct (List.length xs <=? 1)%nat eqn:E; [apply Nat.leb_le in E; lia |].
  eexists. split; [reflexivity |]. split; [| reflexivity].
  apply Qle_shift_div_l; [apply Qnat_pos; lia |].
  rewrite Qmult_0_l. apply Qsum_squares_nonneg.
Qed.

Lemma var_scale k xs v v' :
  (2 <= List.length xs)%nat ->
  var xs = Fin v -> var (map (Qmult k) xs) = Fin v' -> v' == k * k * v.
Proof.
  intros Hn. unfold var. cbv zeta. rewrite length_map.
  destruct (List.length xs <=? 1)%nat eqn:E; [discriminate |].
  intros Hv Hv'. inversion Hv; inversion Hv'; subst. clear Hv Hv'.
  assert (Hd : ~ Qnat (List.length xs - 1) == 0)
    by (apply Qnot_eq_sym, Qlt_not_eq, Qnat_pos; lia).
  assert (Hd' : ~ Qnat (List.length xs) == 0)
    by (apply Qnot_eq_sym, Qlt_not_eq, Qnat_pos; lia).
  rewrite map_map.
  rewrite (Qsum_map_ext _
             (fun x => k * k * ((Qsum xs / Qnat (List.length xs) - x) *
                                (Qsum xs / Qnat (List.length xs) - x)))).
  - rewrite <- (map_map
                  (fun x => (Qsum xs / Qnat (List.length xs) - x) *
                            (Qsum xs / Qnat (List.length xs) - x))
                  (Qmult (k * k))).
    rewrite Qsum_scale. field. exact Hd.
  - intros x. rewrite Qsum_scale. field. exact Hd'.
Qed.

Lemma mean_scale k xs m :
  mean xs = Fin m -> exists m', mean (map (Qmult k) xs) = Fin m' /\ m' == k * m.
Proof.
  intros H.
  assert (Hne : xs <> []) by (intros ->; discriminate).
  assert (Hd : ~ Qnat (List.length xs) == 0)
    by (apply Qnot_eq_sym, Qlt_not_eq, Qnat_pos; destruct xs;
        [congruence | simpl; lia]).
  rewrite mean_nonempty in H by assumption.
  inversion H; subst; clear H.
  rewrite mean_nonempty by (destruct xs; [congruence | discriminate]).
  eexists. split; [reflexivity |].
  rewrite length_map, Qsum_scale. field. exact Hd.
Qed.

Lemma fsqrt_nonneg v : 0 <= v -> fsqrt (Fin v) = Fin (sqrt (Q2R v)).
Proof.
  intros H. unfold fsqrt, Qsgn.
  destruct (v ?= 0) eqn:E; try reflexivity.
  apply Qlt_alt in E. lra.
Qed.

Lemma fdivR_finite x y : y <> 0%R -> fdivR (Fin x) (Fin y) = Fin (x / y)%R.
Proof.
  intros H. unfold fdivR, Float.fdiv, Rsgn.
  destruct (Rlt_dec 0 y); [reflexivity |].
  destruct (Rlt_dec y 0); [reflexivity |].
  exfalso. Lra.lra.
Qed.

Lemma Q2R_nonzero q : ~ q == 0 -> Q2R q <> 0%R.
Proof.
  intros H E. apply H. apply eqR_Qeq. rewrite E. now rewrite RMicromega.Q2R_0.
Qed.

(** The coefficient of variation does not change when every value is
    multiplied by [k > 0]. *)
Lemma cv_of_scale k xs :
  (2 <= List.length xs)%nat -> ~ feq (mean xs) (Fin 0) -> 0 < k ->
  cv_of (map (Qmult k) xs) (map (Qmult k) xs) = cv_of xs xs /\
  exists c, cv_of xs xs = Fin c.
Proof.
  intros Hn Hm Hk.
  destruct (var_finite xs Hn) as (v & Ev & Hv & _).
  destruct (var_finite (map (Qmult k) xs)) as (v' & Ev' & Hv' & _);
    [now rewrite length_map |].
  pose proof (var_scale k xs v v' Hn Ev Ev') as Hvv.
  destruct (mean xs) as [m | | |] eqn:Em;
    try (destruct xs; [simpl in Hn; lia | discriminate]).
  destruct (mean_scale k xs m Em) as (m' & Em' & Hmm).
  simpl in Hm.
  unfold cv_of, std. rewrite Ev, Ev', Em, Em'.
  rewrite !fsqrt_nonneg by assumption. simpl fQ2R.
  assert (Hkr : (0 < Q2R k)%R) by (rewrite <- RMicromega.Q2R_0; now apply Qlt_Rlt).
  assert (Hmr : Q2R m <> 0%R) by now apply Q2R_nonzero.
  assert (Hm'r : Q2R m' = (Q2R k * Q2R m)%R)
    by (rewrite (Qeq_eqR _ _ Hmm); apply Q2R_mult).
  assert (Hv'r : sqrt (Q2R v') = (Q2R k * sqrt (Q2R v))%R).
  { rewrite (Qeq_eqR _ _ Hvv), !Q2R_mult.
    rewrite sqrt_mult.
    - rewrite sqrt_square by Lra.lra. reflexivity.
    - apply Rmult_le_pos; Lra.lra.
    - rewrite <- RMicromega.Q2R_0. now apply Qle_Rle. }
  rewrite Hm'r, Hv'r.
  rewrite !fdivR_finite; [| assumption | apply Rmult_integral_contrapositive; split; [Lra.lra | assumption] ].
  simpl. split; [| eexists; reflexivity].
  f_equal. field. split; [assumption | Lra.lra].
Qed.

Lemma values_scale k s : values (scale k s) = map (Qmult k) (values s).
Proof. unfold values, scale. now rewrite !map_map. Qed.




(** For the same readings the factor 2, by which a binary64 number is
    multiplied without rounding, leaves the coefficient of variation as it
    is. *)
Lemma cv_unchanged_under_scaling_by_two :
  PrimFloat.eqb (Float64.cv (Float64.scale Float64.two Float64.two_readings))
                (Float64.cv Float64.two_readings) = true.
Proof. vm_compute. reflexivity. Qed.

(** ** Ingestion *)

Lemma to_datetime_ok conv c :
  (forall v, In v c -> conv v <> None) ->
  exists ts, to_datetime conv c = Ok (map VTime ts) /\
             List.length ts = List.length c.
Proof.
  induction c as [| v rest IH]; intros H; simpl.
  - exists []. auto.
  - destruct (conv v) as [t |] eqn:E; [| exfalso; apply (H v); simpl; auto].
    destruct IH as (ts & Hts & Hl); [intros; apply H; simpl; auto |].
    rewrite Hts. exists (t :: ts). simpl. auto.
Qed.

Lemma to_datetime_raise conv c :
  (exists v, In v c /\ conv v = None) -> to_datetime conv c = Raise ValueError.
Proof.
  induction c as [| v rest IH]; intros (w & Hin & Hw); simpl; [destruct Hin |].
  destruct (conv v) as [t |] eqn:E; [| reflexivity].
  destruct Hin as [-> | Hin]; [congruence |].
  rewrite IH; [reflexivity | eauto].
Qed.

Lemma load_data_eq conv wb sheet :
  parse "Sheet1" wb = Ok sheet ->
  load_data conv wb =
  match lookup timestamp_header sheet with
  | None => Raise (KeyError timestamp_header)
  | Some c =>
      match to_datetime conv c with
      | Ok c' => Ok (rename column_mapping (set_column timestamp_header c' sheet))
      | Raise e => Raise e
      end
  end.
Proof.
  intros Hp. unfold load_data, preprocess. rewrite Hp.
  destruct (lookup timestamp_header sheet) as [c |] eqn:Hc.
  - rewrite (bind_ok _ _ _ _ _ (getitem_ok _ _ _ Hc)). cbv beta.
    rewrite bind_lift.
    destruct (to_datetime conv c) as [c' | e]; reflexivity.
  - now rewrite (bind_raise _ _ _ _ _ (getitem_raise _ _ Hc)).
Qed.

Lemma lookup_none_iff name df :
  lookup name df = None <-> forall c, ~ In (name, c) df.
Proof.
  induction df as [| [n c'] rest IH]; simpl.
  - split; auto.
  - destruct (String.eqb n name) eqn:E.
    + apply String.eqb_eq in E. subst. split; [discriminate |].
      intros H. exfalso. apply (H c'). auto.
    + apply String.eqb_neq in E. rewrite IH. split.
      * intros H c [Hc | Hc]; [inversion Hc; congruence | exact (H c Hc)].
      * intros H c Hc. apply (H c). auto.
Qed.

Lemma set_column_In name c df n c0 :
  In (n, c0) (set_column name c df) -> n = name \/ In (n, c0) df.
Proof.
  induction df as [| [n' c'] rest IH]; simpl.
  - intros [H | []]. inversion H. auto.
  - destruct (String.eqb n' name) eqn:E; simpl.
    + apply String.eqb_eq in E. intros [H | H]; [inversion H; subst; auto | auto].
    + intros [H | H]; [auto |]. destruct (IH H); auto.
Qed.

Lemma lookup_rename_none mapping df name :
  (forall n c, In (n, c) df -> renamed mapping n <> name) ->
  lookup name (rename mapping df) = None.
Proof.
  induction df as [| [n c] rest IH]; intros H; simpl; [reflexivity |].
  pose proof (H n c (or_introl eq_refl)) as Hn.
  destruct (String.eqb (renamed mapping n) name) eqn:E;
    [apply String.eqb_eq in E; contradiction |].
  apply IH. intros; eapply H; simpl; eauto.
Qed.

Lemma renamed_glucose n :
  renamed column_mapping n = "Glucose"%string ->
  n = glucose_header \/ n = "Glucose"%string.
Proof.
  unfold renamed, column_mapping, find. cbn [fst snd].
  destruct (String.eqb timestamp_header n) eqn:E1; [discriminate |].
  destruct (String.eqb glucose_header n) eqn:E2.
  - apply String.eqb_eq in E2. auto.
  - auto.
Qed.




(* ------------------------------------------------------------------ *)
(** * Further properties of the aggregation *)

(** ** Grouping loses and repeats no reading *)

Lemma insert_group_concat {K} (cmp : K -> K -> comparison) k v gs :
  Permutation (List.concat (map snd (insert_group cmp k v gs)))
              (v :: List.concat (map snd gs)).
Proof.
  induction gs as [| [k' vs] rest IH]; simpl; [reflexivity |].
  destruct (cmp k k'); simpl.
  - rewrite <- app_assoc. simpl. symmetry. apply Permutation_middle.
  - reflexivity.
  - rewrite IH. symmetry. apply Permutation_middle.
Qed.

Lemma groupby_concat {K} (cmp : K -> K -> comparison) keys vals :
  Permutation (List.concat (map snd (groupby cmp keys vals)))
              (map snd (combine keys vals)).
Proof.
  unfold groupby.
  induction (combine keys vals) as [| [k v] rows IH] using rev_ind;
    [reflexivity |].
  rewrite fold_left_app, map_app. simpl.
  rewrite insert_group_concat, IH. apply Permutation_cons_append.
Qed.

Lemma values_of_rows {K} (key : datetime -> K) (s : Series) :
  map snd (map (fun r => (key (timestamp r), glucose_mg_dl r)) s) = values s.
Proof. unfold values. rewrite map_map. reflexivity. Qed.

Lemma daily_groups_are_readings s g :
  In g (groupby date_compare (map date_of (timestamps s)) (values s)) ->
  snd g = readings_on (fst g) s /\ snd g <> [].
Proof.
  destruct g as [k vs]. intros Hin.
  destruct (groups_of_dates s) as (_ & Hc & _).
  destruct (Hc _ _ Hin) as [Hvs Hne]. rewrite group_of_dates in Hvs. auto.
Qed.

Lemma agp_groups_are_readings s g :
  In g (groupby Qcompare (map time_of_day (timestamps s)) (values s)) ->
  snd g = readings_at (fst g) s /\ snd g <> [].
Proof.
  destruct g as [k vs]. intros Hin.
  destruct (groups_of_times s) as (_ & Hc & _).
  destruct (Hc _ _ Hin) as [Hvs Hne]. rewrite group_of_times in Hvs. auto.
Qed.

Lemma Forall2_map_eq {A B C} (P : A -> B -> Prop) (f : A -> C) (g : B -> C) l l' :
  (forall a b, In a l -> P a b -> f a = g b) ->
  Forall2 P l l' -> map f l = map g l'.
Proof.
  intros H HF. induction HF as [| a b l l' Hab HF IH]; simpl; [reflexivity |].
  f_equal; [apply H; simpl; auto |]. apply IH. intros; apply H; simpl; auto.
Qed.

(** X1.  On a frame that holds a series both grouped tables are returned,
    and the groups behind their rows split the readings: put together, the
    readings of the dates of the daily rows are the glucose values of the
    series, each as often as it occurs there, and so are the readings at the
    times of day of the rows of the curve. *)
Theorem grouped_rows_partition_readings df s :
  holds df s ->
  exists daily curve,
    fst (compute_daily_profiles df) = Ok daily /\
    fst (compute_agp df) = Ok curve /\
    Permutation (List.concat (map (fun row => readings_on (Date row) s) daily))
                (values s) /\
    Permutation (List.concat (map (fun row => readings_at (TimeOfDay row) s) curve))
                (values s).
Proof.
  intros H. rewrite (compute_daily_profiles_holds _ _ H).
  destruct (compute_agp_rows _ _ H) as (curve & E & Hall). rewrite E.
  eexists. exists curve. simpl. repeat split.
  - rewrite map_map.
    rewrite (map_ext_in _ snd).
    + rewrite groupby_concat, combine_series. now rewrite values_of_rows.
    + intros g Hg. simpl. symmetry. apply (daily_groups_are_readings s g Hg).
  - rewrite <- (Forall2_map_eq agp_row_of snd
                  (fun row => readings_at (TimeOfDay row) s) _ _
                  ltac:(intros g row Hg (Hk & _); rewrite Hk;
                        apply (agp_groups_are_readings s g Hg)) Hall).
    rewrite groupby_concat, combine_series. now rewrite values_of_rows.
Qed.

Lemma grouped_rows_partition_readings_witness :
  exists daily,
    fst (compute_daily_profiles (frame_of example_series)) = Ok daily /\
    Permutation
      (List.concat (map (fun row => readings_on (Date row) example_series) daily))
      (values example_series).
Proof.
  destruct (grouped_rows_partition_readings
              (frame_of example_series) example_series)
    as (daily & curve & E & _ & P & _).
  - unfold holds; repeat split.
  - exists daily. split; assumption.
Defined.

(** ** Sums and means *)

Lemma Qsum_app xs ys : Qsum (xs ++ ys) == Qsum xs + Qsum ys.
Proof. induction xs as [| x rest IH]; simpl; [ring |]. rewrite IH. ring. Qed.

Lemma Qsum_perm xs ys : Permutation xs ys -> Qsum xs == Qsum ys.
Proof.
  induction 1 as [| x l l' _ IH | x y l | l l' l'' _ IH1 _ IH2]; simpl.
  - reflexivity.
  - now rewrite IH.
  - ring.
  - now rewrite IH1.
Qed.

Lemma Qsum_concat (l : list (list Q)) :
  Qsum (List.concat l) == Qsum (map Qsum l).
Proof.
  induction l as [| xs rest IH]; simpl; [reflexivity |].
  now rewrite Qsum_app, IH.
Qed.

Lemma Qsum_map_ext_in {A} (f g : A -> Q) l :
  (forall a, In a l -> f a == g a) -> Qsum (map f l) == Qsum (map g l).
Proof.
  induction l as [| a rest IH]; intros H; simpl; [reflexivity |].
  rewrite (H a) by (simpl; auto). rewrite IH; [reflexivity |].
  intros; apply H; simpl; auto.
Qed.

Lemma length_pos_nonempty {A} (xs : list A) : xs <> [] -> (0 < List.length xs)%nat.
Proof. destruct xs; [congruence | simpl; lia]. Qed.

(** ** Daily rows *)

Lemma Forall2_map_both {A B C} (P : B -> C -> Prop) (f : A -> B) (g : A -> C) l :
  (forall a, In a l -> P (f a) (g a)) -> Forall2 P (map f l) (map g l).
Proof.
  induction l as [| a rest IH]; intros H; simpl; constructor.
  - apply H; simpl; auto.
  - apply IH. intros; apply H; simpl; auto.
Qed.

(** X3.  On a frame that holds a series with at least one reading, the mean
    of the summary is the mean of the daily means, each weighted by the
    number of readings of its date. *)
Theorem mean_is_weighted_mean_of_daily_means df s :
  holds df s -> s <> [] ->
  exists a rows means m,
    fst (compute_agp_summary df) = Ok a /\
    fst (compute_daily_profiles df) = Ok rows /\
    Forall2 (fun row mu => Mean row = Fin mu) rows means /\
    MeanGlucose a = Fin m /\
    m == Qsum (map (fun p => Qnat (List.length (readings_on (Date (fst p)) s))
                             * snd p)
                   (combine rows means))
         / Qnat (List.length s).
Proof.
  intros H Hne.
  rewrite (compute_agp_summary_holds _ _ H).
  rewrite (compute_daily_profiles_holds _ _ H).
  set (gs := groupby date_compare (map date_of (timestamps s)) (values s)).
  assert (Hv : values s <> []) by (destruct s; [congruence | discriminate]).
  exists (mkSummary (List.length s)
            (pct target_range (values s)) (pct low_range (values s))
            (pct very_low_range (values s)) (pct high_range (values s))
            (pct very_high_range (values s))
            (mean (values s)) (cv_of (values s) (values s))).
  exists (map daily_row gs).
  exists (map (fun g => Qsum (snd g) / Qnat (List.length (snd g))) gs).
  exists (Qsum (values s) / Qnat (List.length (values s))).
  simpl. repeat split.
  - apply Forall2_map_both. intros g Hg. simpl.
    apply mean_nonempty. apply (daily_groups_are_readings s g Hg).
  - now apply mean_nonempty.
  - rewrite combine_diag, map_map. simpl.
    rewrite (Qsum_map_ext_in _ (fun g => Qsum (snd g))).
    + rewrite <- (map_map snd Qsum), <- Qsum_concat.
      unfold gs. rewrite (Qsum_perm _ _ (groupby_concat _ _ _)).
      rewrite combine_series, values_of_rows.
      unfold values at 2. rewrite length_map. reflexivity.
    + intros g Hg.
      destruct (daily_groups_are_readings s g Hg) as [<- Hgne].
      pose proof (Qnat_pos _ (length_pos_nonempty _ Hgne)) as Hn.
      field. intros E. rewrite E in Hn. now apply Qlt_irrefl in Hn.
Qed.

Lemma mean_is_weighted_mean_of_daily_means_witness :
  exists a m,
    fst (compute_agp_summary (frame_of example_series)) = Ok a /\
    MeanGlucose a = Fin m.
Proof.
  destruct (mean_is_weighted_mean_of_daily_means
              (frame_of example_series) example_series)
    as (a & rows & means & m & E & _ & _ & Hm & _).
  - unfold holds; repeat split.
  - discriminate.
  - exists a, m. split; assumption.
Defined.

(** ** Rows of the curve *)

Lemma sort_In x xs : In x (sort xs) <-> In x xs.
Proof.
  split; apply Permutation_in; [apply sort_perm | symmetry; apply sort_perm].
Qed.

(** The first and the last value of the sorted group are the smallest and
    the largest reading of the group. *)
Lemma sorted_extremes xs :
  xs <> [] ->
  let lo := nth 0 (sort xs) 0 in
  let hi := nth (List.length xs - 1) (sort xs) 0 in
  In lo xs /\ In hi xs /\ forall x, In x xs -> lo <= x /\ x <= hi.
Proof.
  intros Hne lo hi.
  pose proof (length_pos_nonempty _ Hne) as Hn.
  pose proof (sort_sorted xs) as Hs.
  repeat split.
  - apply sort_In. apply nth_In. rewrite sort_length. lia.
  - apply sort_In. apply nth_In. rewrite sort_length. lia.
  - apply sort_In in H. destruct (In_nth _ _ 0 H) as (i & Hi & <-).
    apply sorted_nth_le; [assumption | lia | assumption].
  - apply sort_In in H. destruct (In_nth _ _ 0 H) as (i & Hi & <-).
    rewrite sort_length in Hi.
    apply sorted_nth_le; [assumption | lia | rewrite sort_length; lia].
Qed.

Lemma interp_sort_between xs p :
  xs <> [] -> 0 <= p -> p <= 100 ->
  nth 0 (sort xs) 0 <= interp (sort xs) (position p (List.length xs)) /\
  interp (sort xs) (position p (List.length xs)) <=
    nth (List.length xs - 1) (sort xs) 0.
Proof.
  intros Hne H0 H1.
  pose proof (Qnat_length_pos _ Hne) as Hn.
  pose proof (length_pos_nonempty _ Hne) as Hl.
  destruct (position_bounds p _ H0 H1 Hn) as [P0 P1].
  assert (P1' : position p (List.length xs) <= Qnat (List.length (sort xs)) - 1)
    by (rewrite sort_length; exact P1).
  destruct (interp_bounds _ _ (sort_sorted xs) P0 P1') as [B0 B1].
  pose proof (Qfloor_nonneg _ P0) as F0.
  pose proof (Qceiling_below _ _ P1) as C1.
  pose proof (Qfloor_le_ceiling (position p (List.length xs))) as FC.
  split.
  - eapply Qle_trans; [| exact B0].
    apply sorted_nth_le; [apply sort_sorted | lia | rewrite sort_length; lia].
  - eapply Qle_trans; [exact B1 |].
    apply sorted_nth_le; [apply sort_sorted | lia | rewrite sort_length; lia].
Qed.



Lemma interp_single v p : interp (sort [v]) (position p 1) == v.
Proof.
  assert (Hp : position p 1 == inject_Z 0) by (unfold position, Qnat; simpl; ring).
  rewrite (interp_comp _ _ _ Hp), interp_at_integer. reflexivity.
Qed.

(** X5.  On a frame that holds a series, a row of the curve whose time of
    day has a single reading shows that reading as its median and as each
    of its four percentiles. *)
Theorem agp_row_of_single_reading df s :
  holds df s ->
  exists rows,
    fst (compute_agp df) = Ok rows /\
    forall row v, In row rows -> readings_at (TimeOfDay row) s = [v] ->
      feq (Median row) (Fin v) /\
      Percentile5 row == v /\ Percentile25 row == v /\
      Percentile75 row == v /\ Percentile95 row == v.
Proof.
  intros H. destruct (compute_agp_rows _ _ H) as (rows & E & Hall).
  exists rows. rewrite E. split; [reflexivity |].
  intros row v Hrow Hv.
  destruct (Forall2_In_r _ _ _ _ Hall Hrow)
    as ([k vs] & Hin & Hk & (m & Hm & Em) & E5 & E25 & E75 & E95).
  destruct (agp_groups_are_readings s _ Hin) as [Hg _].
  simpl in *. rewrite Hk, <- Hg in Hv. subst vs. simpl in *.
  rewrite Hm, E5, E25, E75, E95. simpl. rewrite Em.
  repeat split; apply interp_single.
Qed.

Lemma agp_row_of_single_reading_witness :
  exists rows,
    fst (compute_agp (frame_of example_series)) = Ok rows /\
    forall row, In row rows ->
      readings_at (TimeOfDay row) example_series = [139 # 2] ->
      Percentile5 row == 139 # 2.
Proof.
  destruct (agp_row_of_single_reading
              (frame_of example_series) example_series) as (rows & E & Hrows).
  - unfold holds; repeat split.
  - exists rows. split; [assumption |].
    intros row Hrow Hv. apply (Hrows row _ Hrow Hv).
Defined.

Lemma time_of_day_fraction t :
  time_of_day t ==
  inject_Z (60 * Z.of_nat (hour t) + Z.of_nat (minute t)) * (1 # 60).
Proof.
  unfold time_of_day, Qnat. rewrite inject_Z_plus, inject_Z_mult.
  change (inject_Z 60) with 60. field.
Qed.

Lemma sixtieth_inj q q' : q * (1 # 60) == q' * (1 # 60) -> q == q'.
Proof. intros H. lra. Qed.

Lemma sixtieth_range q :
  0 <= q -> q < 1440 -> 0 <= q * (1 # 60) /\ q * (1 # 60) < 24.
Proof. intros. split; lra. Qed.

(** X6.  The time of day of a timestamp whose hour is below 24 and whose
    minute is below 60 lies in [[0, 24)], and two such timestamps have the
    same time of day exactly when they have the same hour and the same
    minute: the curve groups the readings by hour and minute, whatever the
    date and the second. *)
Theorem time_of_day_is_hour_and_minute t t' :
  valid_time t -> valid_time t' ->
  (0 <= time_of_day t /\ time_of_day t < 24) /\
  (Qeq_bool (time_of_day t) (time_of_day t') = true <->
   hour t = hour t' /\ minute t = minute t').
Proof.
  intros [Hh Hm] [Hh' Hm'].
  pose proof (time_of_day_fraction t) as Ft.
  pose proof (time_of_day_fraction t') as Ft'.
  set (z := (60 * Z.of_nat (hour t) + Z.of_nat (minute t))%Z) in *.
  set (z' := (60 * Z.of_nat (hour t') + Z.of_nat (minute t'))%Z) in *.
  assert (Hz0 : inject_Z 0 <= inject_Z z) by (rewrite <- Zle_Qle; unfold z; lia).
  assert (Hz1 : inject_Z z < inject_Z 1440)
    by (rewrite <- Zlt_Qlt; unfold z; lia).
  change (inject_Z 0) with 0 in Hz0. change (inject_Z 1440) with 1440 in Hz1.
  split.
  - rewrite Ft. now apply sixtieth_range.
  - rewrite Qeq_bool_iff, Ft, Ft'. split.
    + intros Heq. apply sixtieth_inj in Heq.
      apply (proj1 (inject_Z_injective z z')) in Heq.
      unfold z, z' in Heq. lia.
    + intros [Eh Em]. unfold z, z'. rewrite Eh, Em. reflexivity.
Qed.

Lemma time_of_day_is_hour_and_minute_witness :
  Qeq_bool (time_of_day (mkDatetime 2024 1 1 8 0 0))
           (time_of_day (mkDatetime 2024 1 2 8 0 30)) = true.
Proof.
  apply (time_of_day_is_hour_and_minute
           (mkDatetime 2024 1 1 8 0 0) (mkDatetime 2024 1 2 8 0 30)).
  - unfold valid_time; simpl; lia.
  - unfold valid_time; simpl; lia.
  - split; reflexivity.
Defined.

(** ** Errors of the aggregation *)

Lemma dt_raise c v :
  In v c -> (forall t, v <> VTime t) -> dt c = Raise AttributeError.
Proof.
  induction c as [| w rest IH]; intros Hin Hv; [destruct Hin |].
  simpl. destruct w as [q | t | d | str]; try reflexivity.
  destruct Hin as [<- | Hin]; [exfalso; now apply (Hv t) |].
  now rewrite (IH Hin Hv).
Qed.

Lemma to_numeric_raise c v :
  In v c -> (forall q, v <> VNum q) -> to_numeric c = Raise TypeError.
Proof.
  induction c as [| w rest IH]; intros Hin Hv; [destruct Hin |].
  simpl. destruct w as [q | t | d | str]; try reflexivity.
  destruct Hin as [<- | Hin]; [exfalso; now apply (Hv q) |].
  now rewrite (IH Hin Hv).
Qed.

Lemma glucose_missing df :
  lookup "Glucose" df = None -> glucose df = (Raise (KeyError "Glucose"), df).
Proof.
  intros H. unfold glucose.
  now rewrite (bind_raise _ _ _ _ _ (getitem_raise _ _ H)).
Qed.

Lemma grouped_glucose_missing df :
  lookup "Glucose" df = None ->
  grouped_glucose df = (Raise (KeyError "Column not found: Glucose"), df).
Proof. intros H. unfold grouped_glucose. now rewrite H. Qed.

Lemma glucose_not_numeric df c v :
  lookup "Glucose" df = Some c -> In v c -> (forall q, v <> VNum q) ->
  glucose df = (Raise TypeError, df).
Proof.
  intros H Hin Hv. unfold glucose.
  rewrite (bind_ok _ _ _ _ _ (getitem_ok _ _ _ H)). cbv beta.
  unfold lift. now rewrite (to_numeric_raise _ _ Hin Hv).
Qed.

Lemma summary_raises_with_glucose df e :
  glucose df = (Raise e, df) -> compute_agp_summary df = (Raise e, df).
Proof.
  intros H. unfold compute_agp_summary.
  rewrite (bind_ok get_len _ _ _ _ eq_refl). cbv beta.
  unfold time_in.
  now rewrite (bind_raise _ _ _ _ _ (bind_raise _ _ _ _ _ H)).
Qed.

(** X7.  The summary needs the column [Glucose] and numbers in it: when the
    column holds a cell that is not a number the summary raises [TypeError],
    when the column is absent it raises [KeyError]; in both cases the frame
    stays as it was. *)
Theorem summary_needs_numeric_glucose df c v :
  lookup "Glucose" df = Some c -> In v c -> (forall q, v <> VNum q) ->
  compute_agp_summary df = (Raise TypeError, df) /\
  forall df', lookup "Glucose" df' = None ->
              compute_agp_summary df' = (Raise (KeyError "Glucose"), df').
Proof.
  intros H Hin Hv. split.
  - apply summary_raises_with_glucose. eapply glucose_not_numeric; eauto.
  - intros df' H'. apply summary_raises_with_glucose. now apply glucose_missing.
Qed.

Lemma summary_needs_numeric_glucose_witness :
  compute_agp_summary
    [("Timestamp"%string, [VTime (mkDatetime 2024 1 1 8 0 0)]);
     ("Glucose"%string, [VStr "Lo"])] =
  (Raise TypeError,
   [("Timestamp"%string, [VTime (mkDatetime 2024 1 1 8 0 0)]);
    ("Glucose"%string, [VStr "Lo"])]).
Proof.
  apply (summary_needs_numeric_glucose _ [VStr "Lo"] (VStr "Lo")).
  - reflexivity.
  - simpl; auto.
  - discriminate.
Defined.

(** X8.  The two grouped computations need date-times in the column
    [Timestamp]: on a frame whose column holds a cell that is not a
    date-time, as a sheet that did not go through [load_data] may, both
    raise [AttributeError] and write nothing into the frame. *)
Theorem grouped_computations_need_datetimes df c v :
  lookup "Timestamp" df = Some c -> In v c -> (forall t, v <> VTime t) ->
  compute_daily_profiles df = (Raise AttributeError, df) /\
  compute_agp df = (Raise AttributeError, df).
Proof.
  intros H Hin Hv. pose proof (dt_raise _ _ Hin Hv) as Hdt. split.
  - unfold compute_daily_profiles.
    rewrite (bind_ok _ _ _ _ _ (getitem_ok _ _ _ H)). cbv beta.
    now rewrite bind_lift, Hdt.
  - unfold compute_agp.
    rewrite (bind_ok _ _ _ _ _ (getitem_ok _ _ _ H)). cbv beta.
    now rewrite bind_lift, Hdt.
Qed.

Lemma grouped_computations_need_datetimes_witness :
  compute_daily_profiles raw_frame = (Raise AttributeError, raw_frame) /\
  compute_agp raw_frame = (Raise AttributeError, raw_frame).
Proof.
  apply (grouped_computations_need_datetimes raw_frame
           [VStr "2024-01-01 08:00"] (VStr "2024-01-01 08:00")).
  - reflexivity.
  - simpl; auto.
  - discriminate.
Defined.

(** X9.  On a frame whose [Timestamp] column holds date-times and which has
    no column [Glucose], each grouped computation raises the [KeyError] of
    the grouped frame, "Column not found: Glucose", and only after it has
    written its derived column: the frame it leaves behind has the column
    [Date], respectively [Time of Day]. *)
Theorem grouped_computations_write_before_they_fail df ts :
  lookup "Timestamp" df = Some (map VTime ts) ->
  lookup "Glucose" df = None ->
  compute_daily_profiles df =
    (Raise (KeyError "Column not found: Glucose"),
     set_column "Date" (map (fun t => VDate (date_of t)) ts) df) /\
  compute_agp df =
    (Raise (KeyError "Column not found: Glucose"),
     set_column "Time of Day" (map (fun t => VNum (time_of_day t)) ts) df).
Proof.
  intros Ht Hg. split.
  - unfold compute_daily_profiles.
    rewrite (bind_ok _ _ _ _ _ (getitem_ok _ _ _ Ht)). cbv beta.
    rewrite bind_lift, dt_VTime.
    set (df' := set_column "Date" _ df).
    rewrite (bind_ok (setitem _ _) _ df tt df') by reflexivity. cbv beta.
    rewrite (bind_ok (getitem "Date") _ df' _ df')
      by (apply getitem_ok; apply lookup_set_same). cbv beta.
    rewrite bind_lift.
    rewrite <- (map_map date_of VDate), to_dates_VDate.
    apply bind_raise. apply grouped_glucose_missing.
    unfold df'. rewrite lookup_set_other; [exact Hg | discriminate].
  - unfold compute_agp.
    rewrite (bind_ok _ _ _ _ _ (getitem_ok _ _ _ Ht)). cbv beta.
    rewrite bind_lift, dt_VTime.
    rewrite (bind_ok _ _ _ _ _ (getitem_ok _ _ _ Ht)). cbv beta.
    rewrite bind_lift, dt_VTime.
    rewrite time_of_day_column.
    set (df' := set_column "Time of Day" _ df).
    rewrite (bind_ok (setitem _ _) _ df tt df') by reflexivity. cbv beta.
    rewrite (bind_ok (getitem "Time of Day") _ df' _ df')
      by (apply getitem_ok; apply lookup_set_same). cbv beta.
    rewrite bind_lift.
    rewrite <- (map_map time_of_day VNum), to_numeric_VNum.
    apply bind_raise. apply grouped_glucose_missing.
    unfold df'. rewrite lookup_set_other; [exact Hg | discriminate].
Qed.

Lemma grouped_computations_write_before_they_fail_witness :
  compute_daily_profiles frame_without_glucose =
    (Raise (KeyError "Column not found: Glucose"),
     [("Timestamp"%string, [VTime (mkDatetime 2024 1 1 8 0 0)]);
      ("Date"%string, [VDate (mkDate 2024 1 1)])]).
Proof.
  apply (grouped_computations_write_before_they_fail
           frame_without_glucose [mkDatetime 2024 1 1 8 0 0]); reflexivity.
Defined.

(** ** Running the computations again, and one after the other *)

Lemma set_column_twice name c c' df :
  set_column name c (set_column name c' df) = set_column name c df.
Proof.
  induction df as [| [n c0] rest IH]; simpl.
  - now rewrite String.eqb_refl.
  - destruct (String.eqb n name) eqn:E; simpl; rewrite E; [reflexivity |].
    now rewrite IH.
Qed.

Lemma holds_set_column name c df s :
  holds df s -> name <> "Timestamp"%string -> name <> "Glucose"%string ->
  List.length c = List.length s -> holds (set_column name c df) s.
Proof.
  intros (Ht & Hg & Hl) N1 N2 Hc. repeat split.
  - now rewrite lookup_set_other.
  - now rewrite lookup_set_other.
  - destruct df as [| [n c0] rest]; [discriminate |].
    simpl in *. destruct (String.eqb n name); simpl; congruence.
Qed.

Lemma holds_after_daily df s :
  holds df s ->
  holds (set_column "Date" (map VDate (map date_of (timestamps s))) df) s.
Proof.
  intros H. apply holds_set_column; try assumption; try discriminate.
  unfold timestamps. now rewrite !length_map.
Qed.

Lemma holds_after_agp df s :
  holds df s ->
  holds (set_column "Time of Day"
                    (map VNum (map time_of_day (timestamps s))) df) s.
Proof.
  intros H. apply holds_set_column; try assumption; try discriminate.
  unfold timestamps. now rewrite !length_map.
Qed.

(** X10.  On a frame that holds a series, the derived column one grouped
    computation writes does not disturb the other: the daily profiles
    computed after the curve, as the page does, are those of the frame as it
    was loaded, and the other way round.  Running a grouped computation a
    second time returns the same table and leaves the frame as the first
    run left it. *)
Theorem grouped_computations_do_not_interfere df s :
  holds df s ->
  fst (compute_daily_profiles (snd (compute_agp df))) =
    fst (compute_daily_profiles df) /\
  fst (compute_agp (snd (compute_daily_profiles df))) =
    fst (compute_agp df) /\
  compute_daily_profiles (snd (compute_daily_profiles df)) =
    compute_daily_profiles df /\
  compute_agp (snd (compute_agp df)) = compute_agp df.
Proof.
  intros H.
  pose proof (holds_after_daily _ _ H) as Hd.
  pose proof (holds_after_agp _ _ H) as Ha.
  rewrite (compute_daily_profiles_holds _ _ H), (compute_agp_holds _ _ H).
  simpl.
  rewrite (compute_daily_profiles_holds _ _ Ha), (compute_agp_holds _ _ Hd).
  rewrite (compute_daily_profiles_holds _ _ Hd), (compute_agp_holds _ _ Ha).
  simpl. rewrite !set_column_twice. repeat split.
Qed.

Lemma grouped_computations_do_not_interfere_witness :
  compute_agp (snd (compute_agp (frame_of example_series))) =
  compute_agp (frame_of example_series).
Proof.
  apply (grouped_computations_do_not_interfere
           (frame_of example_series) example_series).
  unfold holds; repeat split.
Defined.

(** ** Time in range: the five percentages together *)

Lemma in_closed_true lo hi x : in_closed lo hi x = true -> lo <= x /\ x <= hi.
Proof.
  unfold in_closed. rewrite andb_true_iff, !Qle_bool_iff. auto.
Qed.

Lemma from_true lo x : Qle_bool lo x && true = true -> lo <= x.
Proof. rewrite andb_true_r, Qle_bool_iff. auto. Qed.

Lemma bucket_hits_le_1 x : (bucket_hits x <= 1)%nat.
Proof.
  unfold bucket_hits.
  destruct (in_closed 0 53 x) eqn:E1, (in_closed 54 69 x) eqn:E2,
    (in_closed 70 180 x) eqn:E3, (in_closed 181 250 x) eqn:E4,
    (Qle_bool 251 x && true) eqn:E5; simpl; try lia; exfalso;
    repeat match goal with
           | H : in_closed _ _ _ = true |- _ => apply in_closed_true in H
           | H : Qle_bool _ _ && true = true |- _ => apply from_true in H
           end; lra.
Qed.

Lemma bucket_hits_whole x : whole_reading x -> bucket_hits x = 1%nat.
Proof.
  intros (z & Hz & ->). unfold bucket_hits.
  change (in_closed 0 53) with (in_closed (inject_Z 0) (inject_Z 53)).
  change (in_closed 54 69) with (in_closed (inject_Z 54) (inject_Z 69)).
  change (in_closed 70 180) with (in_closed (inject_Z 70) (inject_Z 180)).
  change (in_closed 181 250) with (in_closed (inject_Z 181) (inject_Z 250)).
  change (Qle_bool 251) with (Qle_bool (inject_Z 251)).
  unfold in_closed. rewrite !Qle_bool_inject_Z.
  assert (Hcase : (z <= 53 \/ 54 <= z <= 69 \/ 70 <= z <= 180 \/
                   181 <= z <= 250 \/ 251 <= z)%Z) by lia.
  destruct Hcase as [H | [H | [H | [H | H]]]];
    repeat match goal with
           | |- context [(?a <=? ?b)%Z] =>
               first [ rewrite (proj2 (Z.leb_le a b)) by lia
                     | rewrite (proj2 (Z.leb_gt a b)) by lia ]
           end; reflexivity.
Qed.

Lemma count_cons (f : Q -> bool) x xs :
  count f (x :: xs) = ((if f x then 1 else 0) + count f xs)%nat.
Proof. unfold count; simpl. now destruct (f x). Qed.

Lemma count_le_length (f : Q -> bool) xs : (count f xs <= List.length xs)%nat.
Proof. unfold count. apply filter_length_le. Qed.

Lemma bucket_counts xs :
  (count (in_closed 0 53) xs + count (in_closed 54 69) xs +
   count (in_closed 70 180) xs + count (in_closed 181 250) xs +
   count (fun x => Qle_bool 251 x && true) xs
   = fold_right (fun x n => bucket_hits x + n) 0 xs)%nat.
Proof.
  induction xs as [| x rest IH]; [reflexivity |].
  rewrite !count_cons. simpl fold_right. rewrite <- IH.
  unfold bucket_hits. lia.
Qed.

Lemma bucket_counts_le xs :
  (count (in_closed 0 53) xs + count (in_closed 54 69) xs +
   count (in_closed 70 180) xs + count (in_closed 181 250) xs +
   count (fun x => Qle_bool 251 x && true) xs <= List.length xs)%nat.
Proof.
  rewrite bucket_counts.
  induction xs as [| x rest IH]; simpl; [lia |].
  pose proof (bucket_hits_le_1 x). lia.
Qed.

Lemma bucket_counts_whole xs :
  (forall x, In x xs -> whole_reading x) ->
  (count (in_closed 0 53) xs + count (in_closed 54 69) xs +
   count (in_closed 70 180) xs + count (in_closed 181 250) xs +
   count (fun x => Qle_bool 251 x && true) xs = List.length xs)%nat.
Proof.
  intros H. rewrite bucket_counts.
  induction xs as [| x rest IH]; simpl; [reflexivity |].
  rewrite (bucket_hits_whole x) by (apply H; simpl; auto).
  rewrite IH; [reflexivity |]. intros; apply H; simpl; auto.
Qed.

Lemma Qnat_le a b : (a <= b)%nat -> Qnat a <= Qnat b.
Proof. intros H. unfold Qnat. rewrite <- Zle_Qle. lia. Qed.

Lemma percentage_bounds c n :
  (0 < n)%nat -> (c <= n)%nat ->
  0 <= percentage c n /\ percentage c n <= 100.
Proof.
  intros Hn Hc. unfold percentage.
  pose proof (Qnat_pos _ Hn) as Pn. pose proof (Qnat_le _ _ Hc) as Pc.
  assert (P0 : 0 <= Qnat c) by (apply (Qnat_le 0 c); lia).
  assert (0 <= Qnat c / Qnat n)
    by (apply Qle_shift_div_l; [assumption | lra]).
  assert (Qnat c / Qnat n <= 1)
    by (apply Qle_shift_div_r; [assumption | lra]).
  split; lra.
Qed.

(** The five percentages of the summary of values that are not none. *)
Lemma five_percentages xs :
  xs <> [] ->
  let n := List.length xs in
  pct very_low_range xs = Fin (percentage (count (in_closed 0 53) xs) n) /\
  pct low_range xs = Fin (percentage (count (in_closed 54 69) xs) n) /\
  pct target_range xs = Fin (percentage (count (in_closed 70 180) xs) n) /\
  pct high_range xs = Fin (percentage (count (in_closed 181 250) xs) n) /\
  pct very_high_range xs =
    Fin (percentage (count (fun x => Qle_bool 251 x && true) xs) n).
Proof.
  intros Hne n. unfold very_low_range, low_range, target_range, high_range,
    very_high_range.
  rewrite !pct_closed, pct_from by assumption. repeat split.
Qed.

(** X11.  On a frame that holds a series with at least one reading, each of
    the five time-in-range percentages of the summary is the number of
    readings in its range, divided by the number of readings, times 100,
    and lies between 0 and 100; the five numbers of readings add up to at
    most the number of readings: no reading is counted in two ranges. *)
Theorem time_in_range_counts_no_reading_twice df s :
  holds df s -> s <> [] ->
  let xs := values s in
  let n := List.length s in
  let c1 := count (in_closed 0 53) xs in
  let c2 := count (in_closed 54 69) xs in
  let c3 := count (in_closed 70 180) xs in
  let c4 := count (in_closed 181 250) xs in
  let c5 := count (fun x => Qle_bool 251 x && true) xs in
  exists a,
    fst (compute_agp_summary df) = Ok a /\
    TimeVeryLow a = Fin (percentage c1 n) /\
    TimeBelow a = Fin (percentage c2 n) /\
    TimeInTarget a = Fin (percentage c3 n) /\
    TimeAbove a = Fin (percentage c4 n) /\
    TimeVeryHigh a = Fin (percentage c5 n) /\
    Forall (fun c => 0 <= percentage c n /\ percentage c n <= 100)
           [c1; c2; c3; c4; c5] /\
    (c1 + c2 + c3 + c4 + c5 <= n)%nat.
Proof.
  intros H Hne. cbv zeta.
  rewrite (compute_agp_summary_holds _ _ H).
  assert (Hv : values s <> []) by (destruct s; [congruence | discriminate]).
  assert (Hl : List.length (values s) = List.length s)
    by (unfold values; apply length_map).
  pose proof (length_pos_nonempty _ Hv) as Hn. rewrite Hl in Hn.
  destruct (five_percentages _ Hv) as (E1 & E2 & E3 & E4 & E5).
  rewrite Hl in E1, E2, E3, E4, E5.
  eexists. simpl. rewrite E1, E2, E3, E4, E5.
  repeat split.
  - repeat constructor;
      apply percentage_bounds; try assumption;
      rewrite <- Hl; apply count_le_length.
  - rewrite <- Hl. apply bucket_counts_le.
Qed.

Lemma time_in_range_counts_no_reading_twice_witness :
  exists a t,
    fst (compute_agp_summary (frame_of example_series)) = Ok a /\
    TimeInTarget a = Fin t /\ t <= 100.
Proof.
  destruct (time_in_range_counts_no_reading_twice
              (frame_of example_series) example_series)
    as (a & E & _ & _ & Et & _ & _ & Hb & _).
  - unfold holds; repeat split.
  - discriminate.
  - exists a. eexists. split; [exact E |]. split; [exact Et |].
    inversion Hb as [| ? ? _ Hb2]. inversion Hb2 as [| ? ? _ Hb3].
    inversion Hb3 as [| ? ? [_ Ht] _]. exact Ht.
Defined.

(** X12.  On a frame that holds a series with at least one reading whose
    glucose values are all whole numbers that are not negative, the numbers
    of readings behind the five time-in-range percentages add up to the
    number of readings: every reading is counted in exactly one range. *)
Theorem time_in_range_counts_whole_readings_once df s :
  holds df s -> s <> [] ->
  (forall x, In x (values s) -> whole_reading x) ->
  let xs := values s in
  let n := List.length s in
  let c1 := count (in_closed 0 53) xs in
  let c2 := count (in_closed 54 69) xs in
  let c3 := count (in_closed 70 180) xs in
  let c4 := count (in_closed 181 250) xs in
  let c5 := count (fun x => Qle_bool 251 x && true) xs in
  exists a,
    fst (compute_agp_summary df) = Ok a /\
    TimeVeryLow a = Fin (percentage c1 n) /\
    TimeBelow a = Fin (percentage c2 n) /\
    TimeInTarget a = Fin (percentage c3 n) /\
    TimeAbove a = Fin (percentage c4 n) /\
    TimeVeryHigh a = Fin (percentage c5 n) /\
    (c1 + c2 + c3 + c4 + c5 = n)%nat.
Proof.
  intros H Hne Hw. cbv zeta.
  rewrite (compute_agp_summary_holds _ _ H).
  assert (Hv : values s <> []) by (destruct s; [congruence | discriminate]).
  assert (Hl : List.length (values s) = List.length s)
    by (unfold values; apply length_map).
  destruct (five_percentages _ Hv) as (E1 & E2 & E3 & E4 & E5).
  rewrite Hl in E1, E2, E3, E4, E5.
  eexists. simpl. rewrite E1, E2, E3, E4, E5.
  repeat split.
  rewrite <- Hl. now apply bucket_counts_whole.
Qed.

Lemma time_in_range_counts_whole_readings_once_witness :
  (count (in_closed 0 53) [70%Q; 251%Q] +
   count (in_closed 54 69) [70%Q; 251%Q] +
   count (in_closed 70 180) [70%Q; 251%Q] +
   count (in_closed 181 250) [70%Q; 251%Q] +
   count (fun x => Qle_bool 251 x && true) [70%Q; 251%Q] = 2)%nat.
Proof.
  destruct (time_in_range_counts_whole_readings_once
              (frame_of [mkReading (mkDatetime 2024 1 1 8 0 0) 70;
                         mkReading (mkDatetime 2024 1 1 9 0 0) 251])
              [mkReading (mkDatetime 2024 1 1 8 0 0) 70;
               mkReading (mkDatetime 2024 1 1 9 0 0) 251])
    as (a & _ & _ & _ & _ & _ & _ & Hsum).
  - unfold holds; repeat split.
  - discriminate.
  - intros x [<- | [<- | []]].
    + exists 70%Z. split; [lia | reflexivity].
    + exists 251%Z. split; [lia | reflexivity].
  - exact Hsum.
Defined.

(** ** The stacked chart *)

Lemma percentage_nonneg c n : (0 < n)%nat -> 0 <= percentage c n.
Proof.
  intros Hn. unfold percentage.
  pose proof (Qnat_pos _ Hn) as Pn.
  assert (P0 : 0 <= Qnat c) by (apply (Qnat_le 0 c); lia).
  assert (0 <= Qnat c / Qnat n)
    by (apply Qle_shift_div_l; [assumption | lra]).
  lra.
Qed.

(** X13.  On a frame that holds a series with at least one reading, the
    chart of the time in range is a stack of five bars whose heights are the
    percentages of the summary in the order very low, low, target, high,
    very high, each a finite number that is not negative; the first bar
    starts at 0 and each following bar starts where the one below it ends,
    so no bar starts below the start of the one before it. *)
Theorem stacked_chart_bars_are_stacked df s :
  holds df s -> s <> [] ->
  exists a b1 b2 b3 b4 b5,
    fst (compute_agp_summary df) = Ok a /\
    plot_time_in_range_stacked_vertical a = [b1; b2; b3; b4; b5] /\
    map bar_height [b1; b2; b3; b4; b5] =
      [TimeVeryLow a; TimeBelow a; TimeInTarget a; TimeAbove a;
       TimeVeryHigh a] /\
    Forall (fun b => exists h, bar_height b = Fin h /\ 0 <= h)
           [b1; b2; b3; b4; b5] /\
    bar_bottom b1 = Fin 0 /\
    bar_bottom b2 = bar_top b1 /\ bar_bottom b3 = bar_top b2 /\
    bar_bottom b4 = bar_top b3 /\ bar_bottom b5 = bar_top b4 /\
    fle (bar_bottom b1) (bar_bottom b2) = true /\
    fle (bar_bottom b2) (bar_bottom b3) = true /\
    fle (bar_bottom b3) (bar_bottom b4) = true /\
    fle (bar_bottom b4) (bar_bottom b5) = true.
Proof.
  intros H Hne. rewrite (compute_agp_summary_holds _ _ H).
  assert (Hv : values s <> []) by (destruct s; [congruence | discriminate]).
  pose proof (length_pos_nonempty _ Hv) as Hn.
  destruct (five_percentages _ Hv) as (E1 & E2 & E3 & E4 & E5).
  eexists. simpl fst.
  unfold plot_time_in_range_stacked_vertical, zip3. simpl.
  rewrite E1, E2, E3, E4, E5. unfold bar_top. simpl.
  do 5 eexists. split; [reflexivity |]. split; [reflexivity |]. simpl.
  set (n := List.length (values s)) in *.
  pose proof (fun c => percentage_nonneg c n Hn) as Hp.
  repeat split.
  - repeat constructor; eexists; (split; [reflexivity | apply Hp]).
  - apply Qle_bool_iff. pose proof (Hp (count (in_closed 0 53) (values s))).
    lra.
  - apply Qle_bool_iff. pose proof (Hp (count (in_closed 54 69) (values s))).
    lra.
  - apply Qle_bool_iff. pose proof (Hp (count (in_closed 70 180) (values s))).
    lra.
  - apply Qle_bool_iff. pose proof (Hp (count (in_closed 181 250) (values s))).
    lra.
Qed.

Lemma stacked_chart_bars_are_stacked_witness :
  exists a bars,
    fst (compute_agp_summary (frame_of example_series)) = Ok a /\
    plot_time_in_range_stacked_vertical a = bars /\
    List.length bars = 5%nat.
Proof.
  destruct (stacked_chart_bars_are_stacked (frame_of example_series) example_series)
    as (a & b1 & b2 & b3 & b4 & b5 & E & Hb & _).
  - unfold holds; repeat split.
  - discriminate.
  - exists a, [b1; b2; b3; b4; b5]. repeat split; assumption.
Defined.

(** ** The figure of the curve *)

Lemma agp_row_of_monotonic g r :
  snd g <> [] -> agp_row_of g r ->
  exists m, Median r = Fin m /\
            Percentile5 r <= Percentile25 r /\ Percentile25 r <= m /\
            m <= Percentile75 r /\ Percentile75 r <= Percentile95 r.
Proof.
  intros Hne (_ & (m & Hm & Em) & E5 & E25 & E75 & E95).
  exists m. split; [assumption |].
  rewrite E5, E25, E75, E95, Em.
  repeat split; apply interp_sort_mono; try assumption; lra.
Qed.

Lemma agp_rows_ascending gs rows :
  Forall2 agp_row_of gs rows -> StronglySorted (key_lt Qcompare) gs ->
  StronglySorted Qlt (map TimeOfDay rows).
Proof.
  intros Hall Hs. apply StronglySorted_map.
  refine (Forall2_sorted _ _ _ _ _ _ Hall Hs).
  intros a a' b b' (Ha & _) (Ha' & _) Hlt.
  rewrite Ha, Ha'. apply Qlt_alt. exact Hlt.
Qed.

Lemma curve_rows_empty s rows :
  Forall2 agp_row_of
          (groupby Qcompare (map time_of_day (timestamps s)) (values s)) rows ->
  (s = [] -> rows = []) /\ (s <> [] -> rows <> []).
Proof.
  intros Hall. split.
  - intros ->. simpl in Hall. now inversion Hall.
  - intros Hne ->. pose proof (groups_of_times s) as (_ & _ & Hcov).
    inversion Hall as [Hnil |]. rewrite <- Hnil in Hcov.
    destruct s as [| r rest]; [congruence |].
    destruct (Hcov (time_of_day (timestamp r), glucose_mg_dl r))
      as (k & vs & Hin & _); [simpl; auto |].
    destruct Hin.
Qed.

Lemma plot_agp_nonempty rows :
  rows <> [] -> plot_agp rows = Ok (agp_curves rows).
Proof. destruct rows; [congruence | reflexivity]. Qed.



(** ** From the sheet to the report *)

Lemma lookup_rename mapping df n :
  (forall n' c', In (n', c') df ->
                 renamed mapping n' = renamed mapping n -> n' = n) ->
  lookup (renamed mapping n) (rename mapping df) = lookup n df.
Proof.
  induction df as [| [n0 c0] rest IH]; intros Hinj; simpl; [reflexivity |].
  destruct (String.eqb (renamed mapping n0) (renamed mapping n)) eqn:E.
  - apply String.eqb_eq in E.
    rewrite (Hinj n0 c0 (or_introl eq_refl) E), String.eqb_refl. reflexivity.
  - destruct (String.eqb n0 n) eqn:E'.
    + apply String.eqb_eq in E'. subst.
      rewrite String.eqb_refl in E. discriminate.
    + apply IH. intros; eapply Hinj; simpl; eauto.
Qed.

Lemma renamed_timestamp_header :
  renamed column_mapping timestamp_header = "Timestamp"%string.
Proof. reflexivity. Qed.

Lemma renamed_glucose_header :
  renamed column_mapping glucose_header = "Glucose"%string.
Proof. reflexivity. Qed.

Lemma renamed_timestamp n :
  renamed column_mapping n = "Timestamp"%string ->
  n = timestamp_header \/ n = "Timestamp"%string.
Proof.
  unfold renamed, column_mapping, find. cbn [fst snd].
  destruct (String.eqb timestamp_header n) eqn:E1.
  - apply String.eqb_eq in E1. auto.
  - destruct (String.eqb glucose_header n) eqn:E2; [discriminate | auto].
Qed.

Lemma len_rename mapping df : len (rename mapping df) = len df.
Proof. destruct df as [| [n c] rest]; reflexivity. Qed.

Lemma len_set_column_same name c df :
  df <> [] -> List.length c = len df -> len (set_column name c df) = len df.
Proof.
  destruct df as [| [n c0] rest]; [congruence |]. intros _ H. simpl in *.
  destruct (String.eqb n name); simpl; congruence.
Qed.

Lemma timestamps_series_of ts gs :
  List.length ts = List.length gs -> timestamps (series_of ts gs) = ts.
Proof.
  unfold timestamps, series_of. rewrite map_map. simpl.
  revert gs. induction ts as [| t rest IH]; intros [| g gs] Hl;
    simpl in *; try congruence; try lia.
  f_equal. apply IH. lia.
Qed.

Lemma values_series_of ts gs :
  List.length ts = List.length gs -> values (series_of ts gs) = gs.
Proof.
  unfold values, series_of. rewrite map_map. simpl.
  revert gs. induction ts as [| t rest IH]; intros [| g gs] Hl;
    simpl in *; try congruence; try lia.
  f_equal. apply IH. lia.
Qed.

Lemma length_series_of ts gs :
  List.length ts = List.length gs -> List.length (series_of ts gs) = List.length ts.
Proof.
  intros H. unfold series_of. rewrite length_map, length_combine. lia.
Qed.

(** The frame [load_data] makes of a sheet with the two columns holds the
    series of the sheet. *)
Lemma load_data_holds conv wb sheet c ts gs :
  parse "Sheet1" wb = Ok sheet ->
  lookup timestamp_header sheet = Some c ->
  to_datetime conv c = Ok (map VTime ts) ->
  lookup glucose_header sheet = Some (map VNum gs) ->
  List.length ts = List.length gs -> len sheet = List.length ts ->
  lookup "Timestamp" sheet = None -> lookup "Glucose" sheet = None ->
  exists df, load_data conv wb = Ok df /\ holds df (series_of ts gs).
Proof.
  intros Hp Hc Hts Hg Hl Hlen Hnt Hng.
  rewrite (load_data_eq _ _ _ Hp), Hc, Hts.
  eexists. split; [reflexivity |].
  set (sheet' := set_column timestamp_header (map VTime ts) sheet).
  assert (Hnames : forall n c0, In (n, c0) sheet' ->
                     n <> "Timestamp"%string /\ n <> "Glucose"%string).
  { intros n c0 Hin. apply set_column_In in Hin. destruct Hin as [-> | Hin].
    - split; discriminate.
    - split; intros ->.
      + now apply (proj1 (lookup_none_iff _ _) Hnt c0).
      + now apply (proj1 (lookup_none_iff _ _) Hng c0). }
  repeat split.
  - rewrite timestamps_series_of by assumption.
    rewrite <- renamed_timestamp_header, lookup_rename.
    + apply lookup_set_same.
    + intros n c0 Hin Hr. rewrite renamed_timestamp_header in Hr.
      destruct (renamed_timestamp _ Hr) as [-> | ->]; [reflexivity |].
      now destruct (Hnames _ _ Hin).
  - rewrite values_series_of by assumption.
    rewrite <- renamed_glucose_header, lookup_rename.
    + unfold sheet'. rewrite lookup_set_other; [exact Hg | discriminate].
    + intros n c0 Hin Hr. rewrite renamed_glucose_header in Hr.
      destruct (renamed_glucose _ Hr) as [-> | ->]; [reflexivity |].
      now destruct (Hnames _ _ Hin).
  - rewrite len_rename, length_series_of by assumption.
    unfold sheet'. rewrite len_set_column_same.
    + exact Hlen.
    + intros ->. discriminate.
    + rewrite length_map. congruence.
Qed.

(** What the page computes on a frame that holds a series. *)
Lemma render_holds df s :
  holds df s ->
  exists curve df',
    compute_agp df = (Ok curve, df') /\
    (s = [] -> curve = []) /\ (s <> [] -> curve <> []) /\
    render df =
      match plot_agp curve with
      | Ok figure =>
          (Ok (mkReport (mean (values s)) (gmi (mean (values s)))
                 (plot_time_in_range_stacked_vertical
                    (mkSummary (List.length s)
                       (pct target_range (values s)) (pct low_range (values s))
                       (pct very_low_range (values s))
                       (pct high_range (values s))
                       (pct very_high_range (values s))
                       (mean (values s)) (cv_of (values s) (values s))))
                 figure
                 (map daily_row
                    (groupby date_compare (map date_of (timestamps s))
                             (values s)))),
           set_column "Date" (map VDate (map date_of (timestamps s))) df')
      | Raise e => (Raise e, df')
      end.
Proof.
  intros H. destruct (compute_agp_rows _ _ H) as (curve & E & Hall).
  destruct (curve_rows_empty _ _ Hall) as [Hempty Hfull].
  exists curve. eexists. split; [exact E |].
  split; [exact Hempty |]. split; [exact Hfull |].
  unfold render.
  rewrite (bind_ok _ _ _ _ _ (compute_agp_summary_holds _ _ H)). cbv beta.
  rewrite (bind_ok _ _ _ _ _ E). cbv beta.
  rewrite bind_lift.
  destruct (plot_agp curve) as [figure | e]; [| reflexivity].
  rewrite (bind_ok _ _ _ _ _
             (compute_daily_profiles_holds _ _ (holds_after_agp _ _ H))).
  reflexivity.
Qed.

(** X16.  Take a workbook whose sheet [Sheet1] has the timestamp column with
    values that can all be read as date-times and the glucose column with
    numbers, both as long as the sheet, and no column already called
    [Timestamp] or [Glucose].  [load_data] returns a frame that holds the
    series of the sheet, and the curve is computed on it.  When the sheet
    has at least one row the page is built without any error: the report
    shows the mean of the glucose values, the indicator computed from that
    mean, the curves of the curve computed on that frame and the daily
    profiles computed on that frame.  When the sheet has no row the page
    fails with the [TypeError] of [plot_agp]. *)
Theorem report_of_well_formed_sheet conv wb sheet c ts gs :
  parse "Sheet1" wb = Ok sheet ->
  lookup timestamp_header sheet = Some c ->
  to_datetime conv c = Ok (map VTime ts) ->
  lookup glucose_header sheet = Some (map VNum gs) ->
  List.length ts = List.length gs -> len sheet = List.length ts ->
  lookup "Timestamp" sheet = None -> lookup "Glucose" sheet = None ->
  exists df curve,
    load_data conv wb = Ok df /\ holds df (series_of ts gs) /\
    fst (compute_agp df) = Ok curve /\
    (ts = [] -> agp_report conv wb = Raise TypeError) /\
    (ts <> [] ->
     exists r,
       agp_report conv wb = Ok r /\
       shown_mean r = mean gs /\ shown_gmi r = gmi (mean gs) /\
       agp_figure r = agp_curves curve /\
       fst (compute_daily_profiles df) = Ok (shown_daily_profiles r)).
Proof.
  intros Hp Hc Hts Hg Hl Hlen Hnt Hng.
  destruct (load_data_holds _ _ _ _ _ _ Hp Hc Hts Hg Hl Hlen Hnt Hng)
    as (df & Hdf & Hh).
  destruct (render_holds _ _ Hh) as (curve & df' & Ec & Hempty & Hfull & Er).
  exists df, curve.
  split; [exact Hdf |]. split; [exact Hh |].
  split; [now rewrite Ec |].
  unfold agp_report. rewrite Hdf, Er. split.
  - intros ->. rewrite Hempty by reflexivity. reflexivity.
  - intros Hne.
    assert (Hs : series_of ts gs <> []).
    { intros E. apply (f_equal (@List.length Reading)) in E.
      rewrite (length_series_of _ _ Hl) in E.
      destruct ts; [congruence | discriminate]. }
    rewrite (plot_agp_nonempty _ (Hfull Hs)).
    eexists. split; [reflexivity |].
    rewrite (compute_daily_profiles_holds _ _ Hh).
    rewrite (values_series_of _ _ Hl). simpl. repeat split.
Qed.

Lemma report_of_well_formed_sheet_witness :
  exists r, agp_report datetime_cells_only both_columns = Ok r /\
            shown_mean r = mean [125].
Proof.
  destruct (report_of_well_formed_sheet datetime_cells_only both_columns
              [(timestamp_header, [VTime (mkDatetime 2024 1 1 8 0 0)]);
               (glucose_header, [VNum 125])]
              [VTime (mkDatetime 2024 1 1 8 0 0)]
              [mkDatetime 2024 1 1 8 0 0] [125])
    as (df & curve & _ & _ & _ & _ & Hr); try reflexivity.
  destruct Hr as (r & Er & Em & _); [discriminate |].
  exists r. split; assumption.
Defined.

Lemma set_column_names_present name c c0 df :
  lookup name df = Some c0 ->
  column_names (set_column name c df) = column_names df.
Proof.
  unfold column_names.
  induction df as [| [n c1] rest IH]; simpl; [discriminate |].
  destruct (String.eqb n name) eqn:E; simpl; [reflexivity |].
  intros H. now rewrite IH.
Qed.

Lemma set_column_keeps name c df n c0 :
  n <> name -> In (n, c0) df -> In (n, c0) (set_column name c df).
Proof.
  intros Hn. induction df as [| [n1 c1] rest IH]; simpl; [tauto |].
  intros [Hin | Hin].
  - inversion Hin; subst. destruct (String.eqb n name) eqn:E.
    + apply String.eqb_eq in E. contradiction.
    + simpl. auto.
  - destruct (String.eqb n1 name); simpl; auto.
Qed.

(** X17.  When [load_data] returns a frame for a workbook, the frame has
    the columns of the sheet [Sheet1] in the same order, under the names
    [rename] gives them, and as many rows; every column of the sheet other
    than the timestamp column is there with its cells unchanged; and the
    timestamp column, now called [Timestamp] wherever it stands, has one
    date-time for each of its cells. *)
Theorem load_data_keeps_shape conv wb sheet df :
  parse "Sheet1" wb = Ok sheet -> load_data conv wb = Ok df ->
  column_names df = map (renamed column_mapping) (column_names sheet) /\
  len df = len sheet /\
  (forall n c, n <> timestamp_header -> In (n, c) sheet ->
               In (renamed column_mapping n, c) df) /\
  exists c ts,
    lookup timestamp_header sheet = Some c /\
    List.length ts = List.length c /\
    In ("Timestamp"%string, map VTime ts) df.
Proof.
  intros Hp. rewrite (load_data_eq _ _ _ Hp).
  destruct (lookup timestamp_header sheet) as [c |] eqn:Hc; [| discriminate].
  destruct (to_datetime conv c) as [c' |] eqn:Hc'; [| discriminate].
  intros Hdf. inversion Hdf; subst. clear Hdf.
  assert (Hconv : forall v, In v c -> conv v <> None).
  { clear Hc. revert c' Hc'. induction c as [| v rest IH]; intros c' Hc' w Hw;
      [destruct Hw |]. simpl in Hc'.
    destruct (conv v) as [t |] eqn:Ev; [| discriminate].
    destruct (to_datetime conv rest) as [ts' |] eqn:Er; [| discriminate].
    destruct Hw as [<- | Hw]; [congruence | eapply IH; eauto]. }
  destruct (to_datetime_ok conv c Hconv) as (ts & Hts & Hl).
  rewrite Hts in Hc'. inversion Hc'; subst. clear Hc'.
  assert (Hne : sheet <> []) by (intros ->; discriminate).
  repeat split.
  - unfold column_names at 1, rename. rewrite map_map. simpl.
    rewrite <- (set_column_names_present _ (map VTime ts) _ _ Hc).
    unfold column_names. now rewrite map_map.
  - rewrite len_rename.
    destruct sheet as [| [n0 c0] rest]; [congruence |]. simpl in *.
    destruct (String.eqb n0 timestamp_header) eqn:E; simpl; [| reflexivity].
    inversion Hc; subst. now rewrite length_map.
  - intros n c0 Hn Hin. unfold rename.
    apply (in_map (fun nc => (renamed column_mapping (fst nc), snd nc))
                  _ (n, c0)).
    now apply set_column_keeps.
  - exists c, ts. repeat split; [assumption |].
    change ("Timestamp"%string, map VTime ts)
      with ((fun nc => (renamed column_mapping (fst nc), snd nc))
              (timestamp_header, map VTime ts)).
    apply in_map.
    clear - Hc. induction sheet as [| [n0 c0] rest IH]; [discriminate |].
    simpl in *. destruct (String.eqb n0 timestamp_header) eqn:E.
    + apply String.eqb_eq in E. subst. simpl. auto.
    + simpl. right. apply IH. exact Hc.
Qed.

Lemma load_data_keeps_shape_witness :
  exists df,
    load_data datetime_cells_only both_columns = Ok df /\
    column_names df = ["Timestamp"; "Glucose"]%string.
Proof.
  eexists. split; [reflexivity |].
  apply (load_data_keeps_shape datetime_cells_only both_columns
           [(timestamp_header, [VTime (mkDatetime 2024 1 1 8 0 0)]);
            (glucose_header, [VNum 125])]); reflexivity.
Defined.

(** ** The coefficient of variation at the edges *)

Lemma Rsgn_pos x : (0 < x)%R -> Rsgn x = Gt.
Proof. intros H. unfold Rsgn. destruct (Rlt_dec 0 x); [reflexivity | contradiction]. Qed.

Lemma Rsgn_zero : Rsgn 0%R = Eq.
Proof.
  unfold Rsgn. destruct (Rlt_dec 0 0); [exfalso; Lra.lra |].
  reflexivity.
Qed.

Lemma Rsgn_nonneg x : (0 <= x)%R -> Rsgn x = Gt \/ Rsgn x = Eq.
Proof.
  intros H. unfold Rsgn. destruct (Rlt_dec 0 x); [now left |].
  destruct (Rlt_dec x 0); [exfalso; Lra.lra | now right].
Qed.

Lemma Q2R_zero q : q == 0 -> Q2R q = 0%R.
Proof. intros H. rewrite (Qeq_eqR _ _ H). apply RMicromega.Q2R_0. Qed.



(* ------------------------------------------------------------------ *)
(** * The editable table *)

Lemma table_set_same name rows db : table name (set_table name rows db) = Some rows.
Proof.
  induction db as [| [n r] rest IH]; simpl.
  - now rewrite String.eqb_refl.
  - destruct (String.eqb n name) eqn:E; simpl; rewrite E; auto.
Qed.

Lemma set_table_twice name rows rows' db :
  set_table name rows (set_table name rows' db) = set_table name rows db.
Proof.
  induction db as [| [n r] rest IH]; simpl.
  - now rewrite String.eqb_refl.
  - destruct (String.eqb n name) eqn:E; simpl; rewrite E; [reflexivity |].
    now rewrite IH.
Qed.

Lemma emptied_table name db :
  delete_from name (create_table_if_not_exists name db) = set_table name [] db.
Proof.
  unfold delete_from, create_table_if_not_exists.
  destruct (table name db); [reflexivity | apply set_table_twice].
Qed.

(** The two outcomes of a save. *)
Lemma save_to_duckdb_eq df name db :
  save_to_duckdb df name db =
  if forallb insertable df then (Done tt, set_table name df db)
  else (Failed ConversionException, set_table name [] db).
Proof.
  unfold save_to_duckdb. cbv zeta. rewrite emptied_table.
  unfold insert_into. rewrite table_set_same.
  destruct (forallb insertable df); [| reflexivity].
  simpl. now rewrite set_table_twice.
Qed.

(** X18.  Rows whose numbers fit the INTEGER columns are saved whatever the
    store held before, also when the table did not exist, and loading
    afterwards returns exactly the rows that were saved, in their order. *)
Theorem save_then_load_returns_the_rows df db :
  forallb insertable df = true ->
  fst (save_to_duckdb df default_table db) = Done tt /\
  load_from_database (snd (save_to_duckdb df default_table db)) = Done df.
Proof.
  intros H. rewrite save_to_duckdb_eq, H. simpl.
  split; [reflexivity |].
  unfold load_from_database. now rewrite table_set_same.
Qed.

Lemma save_then_load_returns_the_rows_witness :
  load_from_database (snd (save_to_duckdb initial_data default_table [])) =
  Done initial_data.
Proof.
  apply (save_then_load_returns_the_rows initial_data []). reflexivity.
Defined.

(** X19.  A save replaces the table: after it the store is the same as if
    no earlier save to that table had happened, whether that earlier save
    went through or failed, and the outcome of the save is the same too. *)
Theorem save_replaces_earlier_save df df' name db :
  save_to_duckdb df' name (snd (save_to_duckdb df name db)) =
  save_to_duckdb df' name db.
Proof.
  rewrite !save_to_duckdb_eq.
  destruct (forallb insertable df), (forallb insertable df'); simpl;
    now rewrite set_table_twice.
Qed.

(** X20.  When a row holds a number that does not fit its INTEGER column
    the save fails with a conversion error after the table has been
    emptied: the rows that were stored before are gone, and loading returns
    no rows. *)
Theorem failed_save_empties_the_table df db :
  forallb insertable df = false ->
  fst (save_to_duckdb df default_table db) = Failed ConversionException /\
  load_from_database (snd (save_to_duckdb df default_table db)) = Done [].
Proof.
  intros H. rewrite save_to_duckdb_eq, H. simpl.
  split; [reflexivity |].
  unfold load_from_database. now rewrite table_set_same.
Qed.

Lemma failed_save_empties_the_table_witness :
  load_from_database
    (snd (save_to_duckdb [mkPerson 4294967296 "Dora" 41 "dora@example.com"]
            default_table [(default_table, initial_data)])) = Done [].
Proof.
  apply (failed_save_empties_the_table
           [mkPerson 4294967296 "Dora" 41 "dora@example.com"]
           [(default_table, initial_data)]).
  reflexivity.
Defined.
